(** * Code-indexing core of code-buddy: chunker, embedder, point ids, retrieval

    Shallow embedding of
      - services/code-indexer/code_parser.py       (CodeParser)
      - services/code-indexer/embedding_generator.py (EmbeddingGenerator)
      - services/code-indexer/main.py              (perform_indexing)
      - services/rag-chat/main.py       (generate_query_embedding, chat)
      - services/agent-orchestrator/agents/base_agent.py
                                        (get_codebase_context)

    [search_code] of rag-chat/main.py is left out: its text opens a
    [try] that has no handler and is not a function Python accepts.

    Python [str] values that hold file text are lists of Unicode code
    points; line numbers are natural numbers; the running brace depth of
    the JavaScript scanner is an integer (it can go negative).  Code that
    logs and raises is written in a small log-and-exception monad. *)

From Stdlib Require Import String Ascii.
From Stdlib Require Import List Arith ZArith NArith QArith Lia Bool Sorted.
From Stdlib Require Decimal DecimalString.
Import ListNotations.
Close Scope Q_scope.

Set Implicit Arguments.

(* ================================================================== *)
(** ** Python strings *)

Module PyStr.

(** A Python [str] is a sequence of code points. *)
Definition char := N.
Definition str := list char.

Definition py (s : string) : str :=
  map N_of_ascii (list_ascii_of_string s).

(** The newline character, written "\n" in the source. *)
Definition NL : char := 10%N.

(** [str.isspace] on one character (CPython's [_PyUnicode_IsWhitespace]). *)
Definition isspace (c : char) : bool :=
  ((9 <=? c) && (c <=? 13) || (28 <=? c) && (c <=? 32)
   || (c =? 133) || (c =? 160) || (c =? 5760)
   || (8192 <=? c) && (c <=? 8202)
   || (c =? 8232) || (c =? 8233) || (c =? 8239) || (c =? 8287)
   || (c =? 12288))%N.

(** [s.lstrip()], [s.rstrip()] and [s.strip()] with no argument. *)
Fixpoint lstrip (s : str) : str :=
  match s with
  | c :: s' => if isspace c then lstrip s' else s
  | [] => []
  end.

Definition rstrip (s : str) : str := List.rev (lstrip (List.rev s)).

Definition strip (s : str) : str := rstrip (lstrip s).

(** [s.startswith(p)]. *)
Fixpoint startswith (p s : str) : bool :=
  match p, s with
  | [], _ => true
  | _ :: _, [] => false
  | a :: p', b :: s' => (a =? b)%N && startswith p' s'
  end.

(** [s.startswith((p1, p2, ...))]. *)
Definition startswith_any (ps : list str) (s : str) : bool :=
  existsb (fun p => startswith p s) ps.

(** [sub in s]. *)
Fixpoint contains (sub s : str) : bool :=
  startswith sub s ||
  match s with
  | [] => false
  | _ :: s' => contains sub s'
  end.

(** [s.count(c)] for a one-character [c]. *)
Definition count (c : char) (s : str) : nat :=
  length (filter (fun x => (x =? c)%N) s).

(** [s.split('\n')]: never empty, [''.split('\n') == ['']]. *)
Fixpoint split_nl (s : str) : list str :=
  match s with
  | [] => [[]]
  | c :: s' =>
      if (c =? NL)%N then [] :: split_nl s'
      else match split_nl s' with
           | l :: ls => (c :: l) :: ls
           | [] => [[c]]
           end
  end.

(** ['\n'.join(ls)]. *)
Fixpoint join_nl (ls : list str) : str :=
  match ls with
  | [] => []
  | l :: ls' =>
      match ls' with
      | [] => l
      | _ :: _ => l ++ NL :: join_nl ls'
      end
  end.

(** [l[a:b]] and [l[a:]] for non-negative [a] and [b].  The scanners
    slice from [chunk_start - 1], and [chunk_start] is at least 1
    whenever a chunk is open (see [scan_inv]), so no negative index
    arises. *)
Definition slice {A} (l : list A) (a b : nat) : list A :=
  firstn (b - a) (skipn a l).

Definition slice_from {A} (l : list A) (a : nat) : list A := skipn a l.

(** [str(n)] for a non-negative integer. *)
Definition str_of_nat (n : nat) : str :=
  py (DecimalString.NilZero.string_of_uint (Nat.to_uint n)).

End PyStr.
Import PyStr.

(* ================================================================== *)
(** ** Chunks (the dictionaries built by [CodeParser]) *)

Record chunk : Type := mk_chunk {
  content : str;
  start_line : nat;
  end_line : nat;
  type : string;
  language : string
}.

(** "If no chunks found, add entire file": the last statement of both
    [_parse_python] and [_parse_javascript]. *)
Definition whole_file_if_empty (text : str) (lines : list str)
           (lang : string) (cs : list chunk) : list chunk :=
  match cs with
  | [] => [{| content := text; start_line := 1; end_line := length lines;
              type := "file"; language := lang |}]
  | _ :: _ => cs
  end.

(* ================================================================== *)
(** ** [CodeParser._parse_python] *)

Module Python.

(** The loop variables of [_parse_python]. [current_chunk] is [None]
    or one of the non-empty strings 'function' and 'class'. *)
Record state : Type := mk_state {
  chunks : list chunk;
  current_chunk : option string;
  current_indent : nat;
  chunk_start : nat
}.

Definition init : state :=
  {| chunks := []; current_chunk := None;
     current_indent := 0; chunk_start := 0 |}.

(** One iteration of [for i, line in enumerate(lines, 1)]. *)
Definition step (lines : list str) (i : nat) (line : str) (st : state)
  : state :=
  let stripped := lstrip line in
  match stripped with
  | [] => st
  | _ :: _ =>
    if startswith (py "#") stripped then st
    else
      let indent := length line - length stripped in
      if startswith_any [py "def "; py "class "; py "async def "] stripped
      then
        let saved :=
          match current_chunk st with
          | Some t =>
              chunks st ++
              [{| content := join_nl (slice lines (chunk_start st - 1) (i - 1));
                  start_line := chunk_start st;
                  end_line := i - 1;
                  type := t;
                  language := "python" |}]
          | None => chunks st
          end in
        {| chunks := saved;
           current_chunk :=
             Some (if contains (py "def") stripped
                   then "function" else "class")%string;
           current_indent := indent;
           chunk_start := i |}
      else
        match current_chunk st with
        | Some t =>
            if indent <=? current_indent st then
              {| chunks :=
                   chunks st ++
                   [{| content := join_nl (slice lines (chunk_start st - 1) i);
                       start_line := chunk_start st;
                       end_line := i;
                       type := t;
                       language := "python" |}];
                 current_chunk := None;
                 current_indent := current_indent st;
                 chunk_start := chunk_start st |}
            else st
        | None => st
        end
  end.

(** The whole [for] loop, started at line number [i]. *)
Fixpoint loop (lines : list str) (i : nat) (rest : list str) (st : state)
  : state :=
  match rest with
  | [] => st
  | line :: rest' => loop lines (S i) rest' (step lines i line st)
  end.

(** "Add remaining chunk". *)
Definition add_remaining (lines : list str) (st : state) : list chunk :=
  match current_chunk st with
  | Some t =>
      chunks st ++
      [{| content := join_nl (slice_from lines (chunk_start st - 1));
          start_line := chunk_start st;
          end_line := length lines;
          type := t;
          language := "python" |}]
  | None => chunks st
  end.

(** The [file_path] argument of the source is not used by the body. *)
Definition _parse_python (text : str) : list chunk :=
  let lines := split_nl text in
  let st := loop lines 1 lines init in
  whole_file_if_empty text lines "python" (add_remaining lines st).

End Python.

(* ================================================================== *)
(** ** [CodeParser._parse_javascript] *)

Module JavaScript.

(** The loop variables of [_parse_javascript]. *)
Record state : Type := mk_state {
  chunks : list chunk;
  current_chunk : option string;
  chunk_start : nat;
  brace_count : Z
}.

Definition init : state :=
  {| chunks := []; current_chunk := None;
     chunk_start := 0; brace_count := 0 |}.

Definition keywords : list str :=
  [py "function "; py "class "; py "const "; py "let "; py "export ";
   py "async function"].

Definition braces (s : str) : Z :=
  Z.of_nat (count (N_of_ascii "{") s) - Z.of_nat (count (N_of_ascii "}") s).

(** "Function or class definition". *)
Definition open_chunk (lines : list str) (lang : string) (i : nat)
           (line : str) (st : state) : state :=
  let stripped := strip line in
  if existsb (fun keyword => contains keyword stripped) keywords then
    let saved :=
      match current_chunk st with
      | Some t =>
          chunks st ++
          [{| content := join_nl (slice lines (chunk_start st - 1) (i - 1));
              start_line := chunk_start st;
              end_line := i - 1;
              type := t;
              language := lang |}]
      | None => chunks st
      end in
    {| chunks := saved;
       current_chunk :=
         Some (if contains (py "function") stripped then "function"
               else if contains (py "class") stripped then "class"
               else "variable")%string;
       chunk_start := i;
       brace_count := braces stripped |}
  else st.

(** "Track braces". *)
Definition track_braces (line : str) (st : state) : state :=
  {| chunks := chunks st; current_chunk := current_chunk st;
     chunk_start := chunk_start st;
     brace_count := brace_count st + braces line |}.

(** "End of chunk". *)
Definition close_chunk (lines : list str) (lang : string) (i : nat)
           (line : str) (st : state) : state :=
  match current_chunk st with
  | Some t =>
      if (brace_count st =? 0)%Z && contains (py "{") line then
        {| chunks :=
             chunks st ++
             [{| content := join_nl (slice lines (chunk_start st - 1) i);
                 start_line := chunk_start st;
                 end_line := i;
                 type := t;
                 language := lang |}];
           current_chunk := None;
           chunk_start := chunk_start st;
           brace_count := brace_count st |}
      else st
  | None => st
  end.

(** One iteration of [for i, line in enumerate(lines, 1)]. *)
Definition step (lines : list str) (lang : string) (i : nat) (line : str)
           (st : state) : state :=
  close_chunk lines lang i line
    (track_braces line (open_chunk lines lang i line st)).

Fixpoint loop (lines : list str) (lang : string) (i : nat)
         (rest : list str) (st : state) : state :=
  match rest with
  | [] => st
  | line :: rest' => loop lines lang (S i) rest' (step lines lang i line st)
  end.

(** "Add remaining". *)
Definition add_remaining (lines : list str) (lang : string) (st : state)
  : list chunk :=
  match current_chunk st with
  | Some t =>
      chunks st ++
      [{| content := join_nl (slice_from lines (chunk_start st - 1));
          start_line := chunk_start st;
          end_line := length lines;
          type := t;
          language := lang |}]
  | None => chunks st
  end.

Definition _parse_javascript (text : str) (lang : string) : list chunk :=
  let lines := split_nl text in
  let st := loop lines lang 1 lines init in
  whole_file_if_empty text lines lang (add_remaining lines lang st).

End JavaScript.

(* ================================================================== *)
(** ** [CodeParser._parse_generic] and the parsers that delegate to it *)

Module Generic.

(** "lines per chunk". *)
Definition max_chunk_size : nat := 100.

(** [range(0, stop, step)] for a positive [step]. *)
Definition range0 (stop step : nat) : list nat :=
  map (fun k => k * step) (seq 0 ((stop + step - 1) / step)).

Definition _parse_generic (text : str) (lang : string) : list chunk :=
  let lines := split_nl text in
  map (fun i =>
         let chunk_lines := slice lines i (i + max_chunk_size) in
         {| content := join_nl chunk_lines;
            start_line := i + 1;
            end_line := Nat.min (i + max_chunk_size) (length lines);
            type := "code";
            language := lang |})
      (range0 (length lines) max_chunk_size).

Definition _parse_java (text : str) : list chunk := _parse_generic text "java".
Definition _parse_go (text : str) : list chunk := _parse_generic text "go".
Definition _parse_rust (text : str) : list chunk := _parse_generic text "rust".

End Generic.

(* ================================================================== *)
(** ** Exceptions and structured logging *)

Module Py.

(** The exceptions the modelled code raises and catches.  Both are
    instances of Python's [Exception]; [HTTPException] is FastAPI's. *)
Inductive exn : Type :=
| Exception (msg : str)
| HTTPException (status_code : Z) (detail : str).

(** [str(e)]. *)
Definition str_of_exn (e : exn) : str :=
  match e with
  | Exception msg => msg
  | HTTPException _ detail => detail
  end.

Inductive level : Type := Info | Warning | Error.

(** One call of [logger.info], [logger.warning] or [logger.error]. *)
Record log_entry : Type := mk_log {
  lvl : level;
  event : string;
  fields : list (string * str)
}.

(** A computation reads and extends the world [W] and either returns
    or raises. *)
Definition M (W A : Type) : Type := W -> (exn + A) * W.

Definition ret {W A} (a : A) : M W A := fun w => (inr a, w).

Definition bind {W A B} (c : M W A) (k : A -> M W B) : M W B :=
  fun w =>
    match c w with
    | (inr a, w') => k a w'
    | (inl e, w') => (inl e, w')
    end.

Definition raise {W A} (e : exn) : M W A := fun w => (inl e, w).

(** [try: body  except Exception as e: handler(e)]. *)
Definition try_except {W A} (body : M W A) (handler : exn -> M W A)
  : M W A :=
  fun w =>
    match body w with
    | (inr a, w') => (inr a, w')
    | (inl e, w') => handler e w'
    end.

(** The result of a call into a library or a remote service. *)
Definition lift {W A} (r : exn + A) : M W A :=
  match r with
  | inl e => raise e
  | inr a => ret a
  end.

Definition get {W} : M W W := fun w => (inr w, w).
Definition modify {W} (f : W -> W) : M W unit := fun w => (inr tt, f w).

(** [for x in xs: body(x)]. *)
Fixpoint for_each {W A} (xs : list A) (body : A -> M W unit) : M W unit :=
  match xs with
  | [] => ret tt
  | x :: xs' => bind (body x) (fun _ => for_each xs' body)
  end.

(** Worlds that carry the log. *)
Class Logged (W : Type) : Type := {
  get_log : W -> list log_entry;
  add_log : log_entry -> W -> W
}.

Definition logger {W} `{Logged W} (l : level) (ev : string)
           (fs : list (string * str)) : M W unit :=
  modify (add_log {| lvl := l; event := ev; fields := fs |}).

#[global] Instance Logged_list : Logged (list log_entry) := {
  get_log := fun w => w;
  add_log := fun e w => w ++ [e]
}.

End Py.
Import Py.

Declare Scope py_scope.
Delimit Scope py_scope with py.
Notation "x <- c ;; k" := (bind c (fun x => k))
  (at level 61, c at next level, right associativity) : py_scope.
Notation "c ;; k" := (bind c (fun _ => k))
  (at level 61, right associativity) : py_scope.
Open Scope py_scope.

(* ================================================================== *)
(** ** Paths and the file system *)

(** A [pathlib.Path], as far as the code looks at it: [str(p)] and
    [p.suffix]. *)
Record Path : Type := mk_path {
  path_str : str;
  suffix : str
}.

(** What the code asks of the file system. *)
Record filesystem : Type := {
  path_exists : Path -> bool;
  is_dir : Path -> bool;
  is_file : Path -> bool;
  rglob : Path -> list Path;
  read_text : Path -> exn + str;
  joinpath : Path -> str -> Path;
  relative_to : Path -> Path -> exn + Path
}.

Fixpoint str_eqb (a b : str) : bool :=
  match a, b with
  | [], [] => true
  | x :: a', y :: b' => (x =? y)%N && str_eqb a' b'
  | _, _ => false
  end.

(* ================================================================== *)
(** ** [CodeParser] *)

Module CodeParser.

Definition CODE_EXTENSIONS : list str :=
  map py
    [".py"; ".js"; ".ts"; ".jsx"; ".tsx"; ".java"; ".go"; ".rs";
     ".cpp"; ".c"; ".h"; ".hpp"; ".cs"; ".rb"; ".php"; ".swift";
     ".kt"; ".scala"; ".clj"; ".sh"; ".bash"; ".zsh"; ".yaml"; ".yml";
     ".json"; ".toml"; ".ini"; ".cfg"; ".conf"; ".md"; ".rst"]%string.

Definition IGNORE_PATTERNS : list str :=
  map py
    [".git"; ".svn"; ".hg"; "__pycache__"; "node_modules"; ".venv";
     "venv"; "env"; ".env"; "dist"; "build"; ".pytest_cache";
     ".mypy_cache"; ".ruff_cache"; "target"; "bin"; "obj"; ".idea";
     ".vscode"; ".vs"; "*.pyc"; "*.pyo"; "*.pyd"; "*.so"; "*.egg"]%string.

(** The items the generator [find_code_files] yields, in order. *)
Definition find_code_files (fs : filesystem) (root : Path) : list Path :=
  if negb (path_exists fs root) || negb (is_dir fs root) then []
  else
    filter
      (fun item =>
         negb (existsb (fun pattern => contains pattern (path_str item))
                       IGNORE_PATTERNS)
         && (is_file fs item
             && existsb (str_eqb (suffix item)) CODE_EXTENSIONS))
      (rglob fs root).

Definition ext_to_lang : list (string * string) :=
  [(".py", "python"); (".js", "javascript"); (".jsx", "javascript");
   (".ts", "typescript"); (".tsx", "typescript"); (".java", "java");
   (".go", "go"); (".rs", "rust"); (".cpp", "cpp"); (".c", "c");
   (".h", "c"); (".hpp", "cpp"); (".cs", "csharp"); (".rb", "ruby");
   (".php", "php"); (".swift", "swift"); (".kt", "kotlin");
   (".scala", "scala"); (".clj", "clojure"); (".sh", "bash");
   (".bash", "bash"); (".zsh", "bash"); (".yaml", "yaml");
   (".yml", "yaml"); (".json", "json"); (".toml", "toml");
   (".md", "markdown"); (".rst", "rst")]%string.

(** [ext_to_lang.get(file_path.suffix, 'unknown')]. *)
Definition _detect_language (file_path : Path) : string :=
  match find (fun kv => str_eqb (py (fst kv)) (suffix file_path))
             ext_to_lang with
  | Some kv => snd kv
  | None => "unknown"
  end.

(** The branch taken by [parse_file] once the text is read. *)
Definition parse_text (lang : string) (text : str) : list chunk :=
  if (lang =? "python")%string then Python._parse_python text
  else if (lang =? "javascript")%string || (lang =? "typescript")%string
       then JavaScript._parse_javascript text lang
  else if (lang =? "java")%string then Generic._parse_java text
  else if (lang =? "go")%string then Generic._parse_go text
  else if (lang =? "rust")%string then Generic._parse_rust text
  else Generic._parse_generic text lang.

Definition parse_file {W} `{Logged W} (fs : filesystem) (file_path : Path)
  : M W (list chunk) :=
  try_except
    (text <- lift (read_text fs file_path) ;;
     let lang := _detect_language file_path in
     ret (parse_text lang text))
    (fun e =>
       logger Warning "Failed to parse file"
              [("file", path_str file_path); ("error", str_of_exn e)]%string ;;
       ret []).

End CodeParser.

(* ================================================================== *)
(** ** JSON values and the HTTP client *)

(** What [response.json()] decodes to, and what is sent as a vector.
    Numbers are only carried around, never computed with. *)
Unset Elimination Schemes.
Inductive json : Type :=
| JNull
| JBool (b : bool)
| JNum (x : Q)
| JStr (s : str)
| JArr (items : list json)
| JObj (members : list (string * json)).
Set Elimination Schemes.

(** [d.get(key, default)] on a decoded value: an [AttributeError] when
    [d] is not a dictionary. *)
Definition dict_get (d : json) (key : string) (default : json) : exn + json :=
  match d with
  | JObj members =>
      match find (fun kv => (fst kv =? key)%string) members with
      | Some kv => inr (snd kv)
      | None => inr default
      end
  | _ => inl (Exception (py "object has no attribute 'get'"))
  end.

(** The body posted to the embedding service. *)
Record embeddings_request : Type := {
  model : string;
  prompt : str
}.

(** [client.post(url, json=payload)], [response.raise_for_status()] and
    [response.json()] in one: the decoded body, or the exception that
    any of the three raised. *)
Record http_client : Type := {
  post : str -> embeddings_request -> exn + json
}.

(* ================================================================== *)
(** ** [EmbeddingGenerator] *)

Module EmbeddingGenerator.

Definition embedding_model : string := "nomic-embed-text".

(** [[0.0] * 768]. *)
Definition zero_vector : json := JArr (repeat (JNum 0%Q) 768).

Definition generate_embedding {W} `{Logged W} (ollama_host : str)
           (http : http_client) (text : str) : M W json :=
  try_except
    (let url := ollama_host ++ py "/api/embeddings" in
     let payload := {| model := embedding_model;
                       prompt := firstn (N.to_nat 8192) text |} in
     result <- lift (post http url payload) ;;
     lift (dict_get result "embedding" (JArr [])))
    (fun e =>
       logger Error "Failed to generate embedding"
              [("error", str_of_exn e)]%string ;;
       ret zero_vector).

Definition generate_embeddings_batch {W} `{Logged W} (ollama_host : str)
           (http : http_client) (texts : list str) : M W (list json) :=
  (fix go (ts : list str) (embeddings : list json) : M W (list json) :=
     match ts with
     | [] => ret embeddings
     | text :: ts' =>
         embedding <- generate_embedding ollama_host http text ;;
         go ts' (embeddings ++ [embedding])
     end) texts [].

End EmbeddingGenerator.

(* ================================================================== *)
(** ** Hex digests and [int(s, 16)] *)

Module Hex.

(** A digit of [hexdigest()]: lower case. *)
Definition hex_digit (d : N) : char :=
  (if d <? 10 then 48 + d else 87 + d)%N.

(** [hexdigest()] of a 128-bit digest read as a big-endian number:
    32 digits, zero padded. *)
Definition hexdigest (digest : N) : str :=
  map (fun k => hex_digit ((digest / 16 ^ N.of_nat (31 - k)) mod 16)%N)
      (seq 0 32).

(** The value of one character as a base-16 digit. *)
Definition digit_value (c : char) : option N :=
  (if (48 <=? c) && (c <=? 57) then Some (c - 48)
   else if (97 <=? c) && (c <=? 102) then Some (c - 87)
   else if (65 <=? c) && (c <=? 70) then Some (c - 55)
   else None)%N.

Fixpoint int16_digits (acc : N) (s : str) : option N :=
  match s with
  | [] => Some acc
  | c :: s' =>
      match digit_value c with
      | Some d => int16_digits (16 * acc + d)%N s'
      | None => None
      end
  end.

(** [int(s, 16)] on a string of digits with no sign, prefix, space or
    underscore; a [ValueError] otherwise. *)
Definition int16 (s : str) : exn + N :=
  match s with
  | [] => inl (Exception (py "invalid literal for int() with base 16"))
  | _ :: _ =>
      match int16_digits 0 s with
      | Some n => inr n
      | None => inl (Exception (py "invalid literal for int() with base 16"))
      end
  end.

End Hex.

(* ================================================================== *)
(** ** The vector store *)

(** The payload dictionary of a point. *)
Module Payload.
Record t : Type := mk {
  file_path : str;
  content : str;
  start_line : nat;
  end_line : nat;
  language : string;
  chunk_type : string;
  project_path : str
}.
End Payload.

(** [qdrant_client.models.PointStruct]. *)
Record PointStruct : Type := {
  id : N;
  vector : json;
  payload : Payload.t
}.

(** A hit of [qdrant_client.search]. *)
Record ScoredPoint : Type := {
  hit_payload : list (string * json);
  score : Q
}.

(** [qdrant_client]: which values the constructor of [PointStruct]
    accepts as a vector (it validates its arguments and raises on a
    value that is not a vector), whether an upsert is accepted, and
    what a search answers. *)
Record qdrant : Type := {
  valid_vector : json -> bool;
  upsert : string -> list PointStruct -> exn + unit;
  search : string -> json -> Z -> option str -> exn + list ScoredPoint
}.

(** [PointStruct(id=..., vector=..., payload=...)] once its arguments
    are evaluated: the point, or the validation error. *)
Definition new_PointStruct (qd : qdrant) (p : PointStruct)
  : exn + PointStruct :=
  if valid_vector qd (vector p) then inr p
  else inl (Exception (py "ValidationError")).

Definition COLLECTION_NAME : string := "codebase".

(** A Python [bytes] value. *)
Definition bytes : Type := list N.

(** A code point that UTF-8 can encode: any but the surrogates. *)
Definition is_scalar (c : char) : bool :=
  ((c <? 55296) || (57343 <? c) && (c <? 1114112))%N.

(** The UTF-8 bytes of one code point. *)
Definition utf8_char (c : char) : bytes :=
  (if c <? 128 then [c]
   else if c <? 2048 then [192 + c / 64; 128 + c mod 64]
   else if c <? 65536
        then [224 + c / 4096; 128 + (c / 64) mod 64; 128 + c mod 64]
   else [240 + c / 262144; 128 + (c / 4096) mod 64;
         128 + (c / 64) mod 64; 128 + c mod 64])%N.

(** [s.encode()]: a [UnicodeEncodeError] when [s] holds a surrogate, as
    the name of a file whose bytes are not UTF-8 does. *)
Fixpoint encode (s : str) : exn + bytes :=
  match s with
  | [] => inr []
  | c :: s' =>
      if is_scalar c then
        match encode s' with
        | inr b => inr (utf8_char c ++ b)
        | inl e => inl e
        end
      else inl (Exception (py "UnicodeEncodeError"))
  end.

(** [hashlib.md5(b).digest()], read as a big-endian number. *)
Record hashlib : Type := {
  md5 : bytes -> N
}.

(* ================================================================== *)
(** ** The indexing pass ([code-indexer/main.py]) *)

Module Indexer.

(** The log, the local list [points] of [perform_indexing], and the
    batches the vector store has accepted. *)
Record world : Type := mk_world {
  log : list log_entry;
  points : list PointStruct;
  upserted : list (list PointStruct)
}.

#[global] Instance Logged_world : Logged world := {
  get_log := log;
  add_log := fun e w =>
    {| log := log w ++ [e]; points := points w; upserted := upserted w |}
}.

Definition batch_size : nat := 10.

(** [if project_path:] on an [Optional[str]]. *)
Definition truthy (s : option str) : bool :=
  match s with
  | Some (_ :: _) => true
  | _ => false
  end.

Section Pass.

Variable fs : filesystem.
Variable http : http_client.
Variable qd : qdrant.
Variable h : hashlib.
Variable OLLAMA_HOST : str.
Variable WORKSPACE_PATH : Path.

(** "Create point ID from file path and chunk index". *)
Definition point_id (file_path : Path) (c : chunk) : exn + N :=
  match encode (path_str file_path ++ py ":" ++ str_of_nat (start_line c)
                ++ py ":" ++ str_of_nat (end_line c)) with
  | inr b => Hex.int16 (firstn 8 (Hex.hexdigest (md5 h b)))
  | inl e => inl e
  end.

(** The body of [for chunk in chunks] up to the evaluated arguments of
    [PointStruct(...)]; the constructor runs in [index_chunk]. *)
Definition make_point (workspace : Path) (project_path : option str)
           (file_path : Path) (c : chunk) : M world PointStruct :=
  embedding <- EmbeddingGenerator.generate_embedding OLLAMA_HOST http
                 (content c) ;;
  point_id <- lift (point_id file_path c) ;;
  rel <- lift (relative_to fs file_path workspace) ;;
  project <- (if truthy project_path
              then r <- lift (relative_to fs workspace WORKSPACE_PATH) ;;
                   ret (path_str r)
              else ret (py "workspace")) ;;
  ret {| id := point_id;
         vector := embedding;
         payload :=
           {| Payload.file_path := path_str rel;
              Payload.content := content c;
              Payload.start_line := start_line c;
              Payload.end_line := end_line c;
              Payload.language := language c;
              Payload.chunk_type := type c;
              Payload.project_path := project |} |}.

(** The whole body of [for chunk in chunks]. *)
Definition index_chunk (workspace : Path) (project_path : option str)
           (i nfiles : nat) (file_path : Path) (c : chunk)
  : M world unit :=
  arguments <- make_point workspace project_path file_path c ;;
  point <- lift (new_PointStruct qd arguments) ;;
  modify (fun w => {| log := log w; points := points w ++ [point];
                      upserted := upserted w |}) ;;
  w <- get ;;
  if batch_size <=? length (points w) then
    lift (upsert qd COLLECTION_NAME (points w)) ;;
    modify (fun w => {| log := log w; points := [];
                        upserted := upserted w ++ [points w] |}) ;;
    logger Info "Indexed batch"
           [("total", str_of_nat (i + 1)); ("files", str_of_nat nfiles)]%string
  else ret tt.

(** The body of [for i, file_path in enumerate(code_files)], with
    its [try] and [except ... continue]. *)
Definition index_file (workspace : Path) (project_path : option str)
           (nfiles : nat) (i : nat) (file_path : Path) : M world unit :=
  try_except
    (chunks <- CodeParser.parse_file fs file_path ;;
     for_each chunks (index_chunk workspace project_path i nfiles file_path))
    (fun e =>
       logger Warning "Failed to index file"
              [("file", path_str file_path); ("error", str_of_exn e)]%string).

Fixpoint index_files (workspace : Path) (project_path : option str)
         (nfiles : nat) (i : nat) (files : list Path) : M world unit :=
  match files with
  | [] => ret tt
  | file_path :: files' =>
      index_file workspace project_path nfiles i file_path ;;
      index_files workspace project_path nfiles (S i) files'
  end.

(** The [force_reindex] argument of the source is not used. *)
Definition perform_indexing (project_path : option str) : M world unit :=
  try_except
    (let workspace :=
       match project_path with
       | Some ((_ :: _) as p) => joinpath fs WORKSPACE_PATH p
       | _ => WORKSPACE_PATH
       end in
     if negb (path_exists fs workspace) then
       logger Error "Workspace path does not exist"
              [("path", path_str workspace)]%string
     else
       logger Info "Starting indexing"
              [("workspace", path_str workspace)]%string ;;
       let code_files := CodeParser.find_code_files fs workspace in
       logger Info "Found code files"
              [("count", str_of_nat (length code_files))]%string ;;
       index_files workspace project_path (length code_files) 0 code_files ;;
       w <- get ;;
       match points w with
       | _ :: _ =>
           lift (upsert qd COLLECTION_NAME (points w)) ;;
           modify (fun w => {| log := log w; points := points w;
                               upserted := upserted w ++ [points w] |})
       | [] => ret tt
       end ;;
       logger Info "Indexing complete"
              [("total_files", str_of_nat (length code_files))]%string)
    (fun e =>
       logger Error "Indexing failed" [("error", str_of_exn e)]%string).

End Pass.

End Indexer.

(* ================================================================== *)
(** ** Retrieval ([rag-chat/main.py]) *)

Module RagChat.

(** [payload.get(key, default)] on the payload dictionary of a hit. *)
Definition payload_get (p : list (string * json)) (key : string)
           (default : json) : json :=
  match find (fun kv => (fst kv =? key)%string) p with
  | Some kv => snd kv
  | None => default
  end.

Section Service.

Variable http : http_client.
Variable OLLAMA_HOST : str.

Definition generate_query_embedding {W} `{Logged W} (text : str)
  : M W json :=
  try_except
    (let url := OLLAMA_HOST ++ py "/api/embeddings" in
     let payload := {| model := "nomic-embed-text";
                       prompt := firstn (N.to_nat 8192) text |} in
     result <- lift (post http url payload) ;;
     lift (dict_get result "embedding" (JArr [])))
    (fun e =>
       logger Error "Failed to generate query embedding"
              [("error", str_of_exn e)]%string ;;
       raise e).

End Service.

End RagChat.

(* ================================================================== *)
(** ** Properties of chunk lists *)

(** The number of lines of a file, as every parser counts them. *)
Definition file_line_count (text : str) : nat := length (split_nl text).

(** [1 <= start_line <= end_line <= n]. *)
Definition within (n : nat) (c : chunk) : Prop :=
  1 <= start_line c /\ start_line c <= end_line c /\ end_line c <= n.

(** The closed line intervals of two chunks share a line. *)
Definition overlap (a b : chunk) : Prop :=
  start_line a <= end_line b /\ start_line b <= end_line a.

(** Chunk [a] ends before chunk [b] starts. *)
Definition before (a b : chunk) : Prop := end_line a < start_line b.

(** In the order produced, start lines do not decrease and no two
    chunks overlap. *)
Definition line_range_disjoint (cs : list chunk) : Prop :=
  forall i j a b,
    i < j -> nth_error cs i = Some a -> nth_error cs j = Some b ->
    start_line a <= start_line b /\ ~ overlap a b.

(** The labels the parsers put in the ['type'] field. *)
Definition source_kinds : list string :=
  ["function"; "class"; "variable"; "file"; "code"]%string.

(** The labels the data model of the specification lists. *)
Definition spec_kinds : list string :=
  ["function"; "class"; "variable"; "file"; "code-block"]%string.

(** What holds of the loop variables of both scanners once [b] lines
    have been consumed. *)
Definition scan_inv (b : nat) (cs : list chunk) (cur : option string)
           (start : nat) : Prop :=
  StronglySorted before cs
  /\ Forall (fun c => 1 <= start_line c <= end_line c) cs
  /\ Forall (fun c => In (type c) source_kinds) cs
  /\ match cur with
     | None => Forall (fun c => end_line c <= b) cs
     | Some t =>
         In t source_kinds /\ 1 <= start /\ start <= b
         /\ Forall (fun c => end_line c < start) cs
     end.

(** What holds of the list a scanner hands back for a file of [n] lines. *)
Definition scan_result (n : nat) (cs : list chunk) : Prop :=
  StronglySorted before cs
  /\ Forall (within n) cs
  /\ Forall (fun c => In (type c) source_kinds) cs.

(** A five-line Python file: [def foo():] on line 1, its body on lines
    2 to 4, a top-level statement on line 5. *)
Definition foo_file : str :=
  join_nl (map py ["def foo():"; "    a = 1"; "    b = 2"; "    return a";
                   "x = foo()"]%string).

(** The invariant on the loop variables of each scanner. *)
Definition python_inv (b : nat) (st : Python.state) : Prop :=
  scan_inv b (Python.chunks st) (Python.current_chunk st)
           (Python.chunk_start st).

Definition javascript_inv (b : nat) (st : JavaScript.state) : Prop :=
  scan_inv b (JavaScript.chunks st) (JavaScript.current_chunk st)
           (JavaScript.chunk_start st).

(* ================================================================== *)
(** ** Sample files, services and requests *)

Module Samples.

Definition root : Path :=
  {| path_str := py "/app/workspace"; suffix := [] |}.

Definition a_py : Path :=
  {| path_str := py "/app/workspace/a.py"; suffix := py ".py" |}.

(** A file system whose files cannot be read. *)
Definition unreadable : filesystem :=
  {| path_exists := fun _ => true;
     is_dir := fun _ => true;
     is_file := fun _ => true;
     rglob := fun _ => [a_py];
     read_text := fun _ => inl (Exception (py "Permission denied"));
     joinpath := fun p _ => p;
     relative_to := fun p _ => inr p |}.

(** A file system in which every file holds [text]. *)
Definition readable (text : str) : filesystem :=
  {| path_exists := fun _ => true;
     is_dir := fun _ => true;
     is_file := fun _ => true;
     rglob := fun _ => [a_py];
     read_text := fun _ => inr text;
     joinpath := fun p _ => p;
     relative_to := fun p _ => inr p |}.

(** An embedding service that cannot be reached, and one that answers
    every request with the vector [v]. *)
Definition service_down : http_client :=
  {| post := fun _ _ => inl (Exception (py "Connection refused")) |}.

Definition service_up (v : json) : http_client :=
  {| post := fun _ _ => inr (JObj [("embedding"%string, v)]) |}.

(** A vector store that cannot be reached, and one that accepts every
    batch and answers every search with [hits]; both take a list of
    numbers as a vector. *)
Definition is_number_list (v : json) : bool :=
  match v with
  | JArr items =>
      forallb (fun x => match x with JNum _ => true | _ => false end) items
  | _ => false
  end.

Definition store_down : qdrant :=
  {| valid_vector := is_number_list;
     upsert := fun _ _ => inl (Exception (py "Connection refused"));
     search := fun _ _ _ _ => inl (Exception (py "Connection refused")) |}.

Definition store_up (hits : list ScoredPoint) : qdrant :=
  {| valid_vector := is_number_list;
     upsert := fun _ _ => inr tt;
     search := fun _ _ _ _ => inr hits |}.

(** A stand-in for the digest: any function of the string will do. *)
Definition length_hash : hashlib :=
  {| md5 := fun s => N.of_nat (length s) |}.

Definition host : str := py "http://localhost:11434".

Definition empty_world : Indexer.world :=
  {| Indexer.log := []; Indexer.points := []; Indexer.upserted := [] |}.

(** Two chunks on lines 1 to 4 that differ in content and kind. *)
Definition chunk_one : chunk :=
  {| content := py "def f(): return 1"; start_line := 1; end_line := 4;
     type := "function"; language := "python" |}.

Definition chunk_two : chunk :=
  {| content := py "class C: pass"; start_line := 1; end_line := 4;
     type := "class"; language := "python" |}.

Definition vector : json := JArr [JNum 1%Q; JNum 0%Q].

End Samples.

(* ================================================================== *)
(** ** The chat endpoint ([rag-chat/main.py]) *)

(** The body posted to the text-generation service. *)
Module GenerateRequest.
Record options_t : Type := mk_options {
  temperature : Q;
  num_predict : Z
}.
Record t : Type := mk {
  model : str;
  prompt : str;
  system : str;
  stream : bool;
  options : options_t
}.
End GenerateRequest.

(** [client.post(url, json=payload)], [raise_for_status()] and [json()]
    against the generation endpoint. *)
Record llm_client : Type := {
  post_generate : str -> GenerateRequest.t -> exn + json
}.

(** [result.score] of a hit. *)
Definition score_of (r : ScoredPoint) : Q := score r.

Module Chat.

Record ChatRequest : Type := {
  message : str;
  project_path : option str;
  max_results : Z;
  temperature : Q;
  model : option str
}.

(** One entry of [context_chunks]. *)
Record ContextChunk : Type := {
  file : json;
  chunk_content : json;
  lines : str
}.

(** One entry of [sources]. *)
Record Source : Type := {
  file_path : json;
  start_line : json;
  end_line : json;
  language : json;
  score : Q
}.

(** The dictionary [chat] returns. *)
Record ChatResponse : Type := {
  response : json;
  sources : list Source;
  context_used : bool
}.

Definition system_prompt : str :=
  py "You are an expert code assistant with access to the codebase context."
  ++ NL :: py "Answer questions about the code, explain how things work, and help with development tasks."
  ++ NL :: py "Use the provided code context to give accurate, specific answers."
  ++ NL :: py "If the context doesn't contain relevant information, say so.".

(** ["\n\n".join(parts)]. *)
Fixpoint join_blank (parts : list str) : str :=
  match parts with
  | [] => []
  | p :: parts' =>
      match parts' with
      | [] => p
      | _ :: _ => p ++ NL :: NL :: join_blank parts'
      end
  end.

Section Service.

Variable http : http_client.
Variable llm : llm_client.
Variable qd : qdrant.
Variable OLLAMA_HOST : str.

(** How an f-string renders a payload value ([format(v, '')]). *)
Variable format : json -> str.

Definition call_ollama {W} `{Logged W} (prompt system_prompt model : str)
           (temperature : Q) : M W json :=
  try_except
    (let url := OLLAMA_HOST ++ py "/api/generate" in
     let payload :=
       {| GenerateRequest.model := model;
          GenerateRequest.prompt := prompt;
          GenerateRequest.system := system_prompt;
          GenerateRequest.stream := false;
          GenerateRequest.options :=
            {| GenerateRequest.temperature := temperature;
               GenerateRequest.num_predict := 4096 |} |} in
     result <- lift (post_generate llm url payload) ;;
     lift (dict_get result "response" (JStr [])))
    (fun e =>
       logger Error "Ollama API call failed" [("error", str_of_exn e)]%string ;;
       raise e).

Definition to_context (r : ScoredPoint) : ContextChunk :=
  let payload := hit_payload r in
  {| file := RagChat.payload_get payload "file_path" (JStr (py "unknown"));
     chunk_content := RagChat.payload_get payload "content" (JStr []);
     lines := format (RagChat.payload_get payload "start_line" (JNum 0%Q))
              ++ py "-"
              ++ format (RagChat.payload_get payload "end_line" (JNum 0%Q)) |}.

Definition to_source (r : ScoredPoint) : Source :=
  let payload := hit_payload r in
  {| file_path := RagChat.payload_get payload "file_path" (JStr (py "unknown"));
     start_line := RagChat.payload_get payload "start_line" (JNum 0%Q);
     end_line := RagChat.payload_get payload "end_line" (JNum 0%Q);
     language := RagChat.payload_get payload "language" (JStr (py "unknown"));
     score := score_of r |}.

Definition context_text (context_chunks : list ContextChunk) : str :=
  join_blank
    (map (fun chunk =>
            py "File: " ++ format (file chunk) ++ py " (lines " ++ lines chunk
            ++ py ")" ++ NL :: format (chunk_content chunk))
         context_chunks).

Definition user_prompt (context : str) (message : str) : str :=
  py "Context from codebase:" ++ NL :: NL :: context
  ++ NL :: NL :: py "User question: " ++ message
  ++ NL :: NL :: py "Provide a helpful answer based on the codebase context.".

(** [request.model or "llama3.2:90b"]. *)
Definition model_or_default (m : option str) : str :=
  match m with
  | Some ((_ :: _) as name) => name
  | _ => py "llama3.2:90b"
  end.

Definition chat {W} `{Logged W} (request : ChatRequest) : M W ChatResponse :=
  try_except
    (logger Info "Chat request"
            [("message", firstn 100 (message request));
             ("project", match project_path request with
                         | Some p => p
                         | None => py "None"
                         end)]%string ;;
     query_embedding <-
       RagChat.generate_query_embedding http OLLAMA_HOST (message request) ;;
     search_results <-
       lift (search qd COLLECTION_NAME query_embedding (max_results request)
                    (if Indexer.truthy (project_path request)
                     then project_path request else None)) ;;
     let context_chunks := map to_context search_results in
     let sources := map to_source search_results in
     let prompt := user_prompt (context_text context_chunks)
                               (message request) in
     response_text <-
       call_ollama prompt system_prompt (model_or_default (model request))
                   (temperature request) ;;
     ret {| response := response_text;
            sources := sources;
            context_used := negb (length sources =? 0) |})
    (fun e =>
       logger Error "Chat failed" [("error", str_of_exn e)]%string ;;
       raise (HTTPException 500 (str_of_exn e))).

End Service.

End Chat.

(* ================================================================== *)
(** ** The agents' retrieval helper ([agent-orchestrator/agents/base_agent.py]) *)

Module BaseAgent.

(** The query parameters of the search request. *)
Record search_params : Type := {
  query : str;
  project_path : option str;
  limit : Z
}.

(** [client.post(url, params=...)], [raise_for_status()] and [json()]
    against the retrieval service. *)
Record search_client : Type := {
  post_search : str -> search_params -> exn + json
}.

Definition get_codebase_context {W} `{Logged W} (client : search_client)
           (query : str) (project_path : option str) (max_results : Z)
  : M W json :=
  try_except
    (let rag_chat_url := py "http://rag-chat:8003" in
     result <- lift (post_search client (rag_chat_url ++ py "/search")
                       {| query := query;
                          project_path := project_path;
                          limit := max_results |}) ;;
     lift (dict_get result "results" (JArr [])))
    (fun e =>
       logger Warning "Failed to get codebase context"
              [("error", str_of_exn e)]%string ;;
       ret (JArr [])).

End BaseAgent.

(* ================================================================== *)
(** ** Properties of scanned chunks *)

(** The chunk holds exactly the lines it names, joined by newlines. *)
Definition content_matches (lines : list str) (c : chunk) : Prop :=
  content c = join_nl (slice lines (start_line c - 1) (end_line c)).

(** [len(line) - len(line.lstrip())]. *)
Definition indent_of (line : str) : nat := length line - length (lstrip line).

(** A line [_parse_python] passes over: blank or a comment. *)
Definition python_skipped (line : str) : bool :=
  match lstrip line with
  | [] => true
  | (_ :: _) as stripped => startswith (py "#") stripped
  end.

(** A line on which [_parse_python] opens a chunk. *)
Definition python_definition (line : str) : bool :=
  negb (python_skipped line)
  && startswith_any [py "def "; py "class "; py "async def "] (lstrip line).

(** The label [_parse_python] gives to a chunk opened on [line]. *)
Definition python_label (line : str) : string :=
  if contains (py "def") (lstrip line) then "function" else "class".

Definition python_opened_at (lines : list str) (c : chunk) : Prop :=
  exists line,
    nth_error lines (start_line c - 1) = Some line
    /\ python_definition line = true
    /\ type c = python_label line.

(** Where a Python chunk ends: on the last line of the file, right
    before the next definition, or on a line of code that is indented
    no deeper than the line the chunk starts on. *)
Definition python_closed_at (lines : list str) (c : chunk) : Prop :=
  end_line c = length lines
  \/ (exists next,
        nth_error lines (end_line c) = Some next
        /\ python_definition next = true)
  \/ (exists first last,
        nth_error lines (start_line c - 1) = Some first
        /\ nth_error lines (end_line c - 1) = Some last
        /\ start_line c < end_line c
        /\ python_skipped last = false
        /\ python_definition last = false
        /\ indent_of last <= indent_of first).

(** A line on which [_parse_javascript] opens a chunk. *)
Definition javascript_keyword (line : str) : bool :=
  existsb (fun keyword => contains keyword (strip line)) JavaScript.keywords.

(** The label [_parse_javascript] gives to a chunk opened on [line]. *)
Definition javascript_label (line : str) : string :=
  if contains (py "function") (strip line) then "function"
  else if contains (py "class") (strip line) then "class"
  else "variable".

Definition javascript_opened_at (lines : list str) (c : chunk) : Prop :=
  exists line,
    nth_error lines (start_line c - 1) = Some line
    /\ javascript_keyword line = true
    /\ type c = javascript_label line.

(** Where a JavaScript chunk ends: on the last line of the file, right
    before the next keyword line, or on a line that contains an opening
    brace. *)
Definition javascript_closed_at (lines : list str) (c : chunk) : Prop :=
  end_line c = length lines
  \/ (exists next,
        nth_error lines (end_line c) = Some next
        /\ javascript_keyword next = true)
  \/ (exists last,
        nth_error lines (end_line c - 1) = Some last
        /\ contains (py "{") last = true).

(** The single chunk of the whole-file fallback. *)
Definition whole_file_chunk (text : str) (lang : string) : chunk :=
  {| content := text; start_line := 1; end_line := file_line_count text;
     type := "file"; language := lang |}.

(** The chunks [parse_file] returns for a file, whatever the log. *)
Definition chunks_of (fs : filesystem) (file_path : Path) : list chunk :=
  match read_text fs file_path with
  | inr text =>
      CodeParser.parse_text (CodeParser._detect_language file_path) text
  | inl _ => []
  end.

(** The chunk a point was built from, read back from its payload. *)
Definition chunk_of_point (p : PointStruct) : chunk :=
  {| content := Payload.content (payload p);
     start_line := Payload.start_line (payload p);
     end_line := Payload.end_line (payload p);
     type := Payload.chunk_type (payload p);
     language := Payload.language (payload p) |}.

(** The workspace [perform_indexing] walks. *)
Definition workspace_of (fs : filesystem) (root : Path)
           (project_path : option str) : Path :=
  match project_path with
  | Some ((_ :: _) as p) => joinpath fs root p
  | _ => root
  end.

(** What indexing the chunks [cs] does to the world when the vector
    store accepts every batch: fewer than [batch_size] points stay
    pending, every batch sent holds exactly [batch_size] points, and
    the points sent or pending are those that were pending followed by
    one point per chunk, in order. *)
Definition indexed_after (w w' : Indexer.world) (cs : list chunk) : Prop :=
  length (Indexer.points w') < Indexer.batch_size
  /\ exists sent,
       Indexer.upserted w' = Indexer.upserted w ++ sent
       /\ Forall (fun b => length b = Indexer.batch_size) sent
       /\ map chunk_of_point (concat sent ++ Indexer.points w')
          = map chunk_of_point (Indexer.points w) ++ cs.

(* ================================================================== *)
(** ** More sample inputs *)

Module MoreSamples.

(** An embedding service whose answer has no ["embedding"] entry. *)
Definition service_without_embedding : http_client :=
  {| post := fun _ _ => inr (JObj []) |}.

(** A one-line class declaration. *)
Definition one_line_class : str := py "class A { }".

(** A workspace under a directory called [build]. *)
Definition build_root : Path :=
  {| path_str := py "/srv/build/app"; suffix := [] |}.

Definition build_main : Path :=
  {| path_str := py "/srv/build/app/main.py"; suffix := py ".py" |}.

Definition build_fs : filesystem :=
  {| path_exists := fun _ => true;
     is_dir := fun _ => true;
     is_file := fun _ => true;
     rglob := fun _ => [build_main];
     read_text := fun _ => inr [];
     joinpath := fun p _ => p;
     relative_to := fun p _ => inr p |}.

(** A workspace that holds one configuration file. *)
Definition settings_ini : Path :=
  {| path_str := py "/app/workspace/settings.ini"; suffix := py ".ini" |}.

Definition config_fs : filesystem :=
  {| path_exists := fun _ => true;
     is_dir := fun _ => true;
     is_file := fun _ => true;
     rglob := fun _ => [settings_ini];
     read_text := fun _ => inr (py "[section]");
     joinpath := fun p _ => p;
     relative_to := fun p _ => inr p |}.

(** Two texts of 8193 characters that differ in the last one only. *)
Definition long_text (last : string) : str :=
  repeat (N_of_ascii "a") (N.to_nat 8192) ++ py last.

(** A generation service that cannot be reached, and one that answers
    every request with [text]. *)
Definition llm_down : llm_client :=
  {| post_generate := fun _ _ => inl (Exception (py "Connection refused")) |}.

Definition llm_up (text : str) : llm_client :=
  {| post_generate := fun _ _ => inr (JObj [("response"%string, JStr text)]) |}.

(** A rendering of payload values that is good enough for strings. *)
Definition format (v : json) : str :=
  match v with
  | JStr s => s
  | _ => py "0"
  end.

Definition hit : ScoredPoint :=
  {| hit_payload := [("file_path", JStr (py "a.py"));
                     ("content", JStr (py "def f(): pass"))]%string;
     score := 1%Q |}.

Definition chat_request : Chat.ChatRequest :=
  {| Chat.message := py "where is the parser";
     Chat.project_path := None;
     Chat.max_results := 5;
     Chat.temperature := 1%Q;
     Chat.model := None |}.

(** A retrieval service that cannot be reached. *)
Definition search_down : BaseAgent.search_client :=
  {| BaseAgent.post_search :=
       fun _ _ => inl (Exception (py "Connection refused")) |}.

End MoreSamples.

(* ================================================================== *)
(** * Lemmas on strings and slices *)

Lemma split_nl_not_nil (s : str) : split_nl s <> [].
Proof.
  destruct s as [|c s]; simpl; [discriminate|].
  destruct (c =? NL)%N; [discriminate|].
  destruct (split_nl s); discriminate.
Qed.

Lemma file_line_count_pos (text : str) : 1 <= file_line_count text.
Proof.
  unfold file_line_count.
  pose proof (split_nl_not_nil text) as Hne.
  destruct (split_nl text); [contradiction|simpl; lia].
Qed.

(** Joining what [split] produced gives the text back. *)
Lemma join_split_nl (s : str) : join_nl (split_nl s) = s.
Proof.
  induction s as [|c s IH]; [reflexivity|].
  cbn [split_nl].
  destruct (c =? NL)%N eqn:Hc.
  - apply N.eqb_eq in Hc; subst c.
    pose proof (split_nl_not_nil s) as Hne.
    destruct (split_nl s) as [|l ls]; [contradiction|].
    cbn [join_nl app] in *. now rewrite IH.
  - pose proof (split_nl_not_nil s) as Hne.
    destruct (split_nl s) as [|l ls]; [contradiction|].
    cbn [join_nl] in *. destruct ls; cbn [app]; now rewrite <- IH.
Qed.

Lemma join_nl_app (a b : list str) :
  a <> [] -> b <> [] -> join_nl (a ++ b) = join_nl a ++ NL :: join_nl b.
Proof.
  intros Ha Hb. induction a as [|x a IH]; [contradiction|].
  destruct a as [|y a].
  - destruct b; [contradiction|reflexivity].
  - change (join_nl ((x :: y :: a) ++ b))
      with (x ++ NL :: join_nl ((y :: a) ++ b)).
    rewrite IH by discriminate.
    change (join_nl (x :: y :: a)) with (x ++ NL :: join_nl (y :: a)).
    now rewrite <- app_assoc.
Qed.

(** Joining the joined blocks is joining all the lines. *)
Lemma join_nl_blocks (bs : list (list str)) :
  Forall (fun b => b <> []) bs ->
  join_nl (map join_nl bs) = join_nl (concat bs).
Proof.
  induction 1 as [|b bs Hb Hbs IH]; [reflexivity|].
  destruct bs as [|b' bs].
  - simpl. now rewrite app_nil_r.
  - change (join_nl (map join_nl (b :: b' :: bs)))
      with (join_nl b ++ NL :: join_nl (map join_nl (b' :: bs))).
    rewrite IH.
    change (concat (b :: b' :: bs)) with (b ++ concat (b' :: bs)).
    rewrite join_nl_app; [reflexivity|assumption|].
    inversion Hbs; subst. destruct b'; [contradiction|discriminate].
Qed.

Lemma slice_app {A} (l : list A) (a b c : nat) :
  a <= b -> b <= c -> slice l a b ++ slice l b c = slice l a c.
Proof.
  intros Hab Hbc. unfold slice.
  replace (skipn b l) with (skipn (b - a) (skipn a l))
    by (rewrite skipn_skipn; f_equal; lia).
  replace (c - a) with ((b - a) + (c - b)) by lia.
  generalize (skipn a l) as l'. generalize (b - a) as n.
  induction n as [|n IH]; intros l'; [reflexivity|].
  destruct l' as [|x l']; simpl.
  - now rewrite firstn_nil.
  - now rewrite IH.
Qed.

Lemma slice_not_nil {A} (l : list A) (a b : nat) :
  a < length l -> a < b -> slice l a b <> [].
Proof.
  intros Ha Hb Hnil. apply (f_equal (@length A)) in Hnil.
  unfold slice in Hnil. rewrite length_firstn, length_skipn in Hnil.
  simpl in Hnil. lia.
Qed.

(* ================================================================== *)
(** * The scan invariant *)

Lemma StronglySorted_snoc {A} (R : A -> A -> Prop) (l : list A) (x : A) :
  StronglySorted R l -> Forall (fun a => R a x) l ->
  StronglySorted R (l ++ [x]).
Proof.
  induction 1 as [|a l Hl IH Ha]; intros Hx; simpl.
  - repeat constructor.
  - inversion Hx; subst. constructor; [now apply IH|].
    apply Forall_app; split; [assumption|now repeat constructor].
Qed.

Lemma scan_inv_init : scan_inv 0 [] None 0.
Proof. repeat split; constructor. Qed.

(** A line that changes no variable. *)
Lemma scan_inv_skip b cs cur start :
  scan_inv b cs cur start -> scan_inv (S b) cs cur start.
Proof.
  intros (Hs & Hw & Hk & Hc). repeat split; try assumption.
  destruct cur as [t|].
  - destruct Hc as (? & ? & ? & ?). repeat split; try assumption; lia.
  - eapply Forall_impl; [|exact Hc]. simpl; intros; lia.
Qed.

(** Appending the open chunk, closed at the last consumed line. *)
Lemma scan_inv_close b cs t start start' c :
  scan_inv b cs (Some t) start ->
  start_line c = start -> end_line c = b -> type c = t ->
  scan_inv b (cs ++ [c]) None start'.
Proof.
  intros (Hs & Hw & Hk & Ht & H1 & Hb & Hlt) Hcs Hce Hct.
  repeat split.
  - apply StronglySorted_snoc; [assumption|].
    eapply Forall_impl; [|exact Hlt]. unfold before; simpl; intros; lia.
  - apply Forall_app; split; [assumption|].
    constructor; [lia|constructor].
  - apply Forall_app; split; [assumption|].
    constructor; [now rewrite Hct|constructor].
  - apply Forall_app; split; [|constructor; [lia|constructor]].
    eapply Forall_impl; [|exact Hlt]. simpl; intros; lia.
Qed.

(** Opening a chunk on the line after the last consumed one. *)
Lemma scan_inv_open b cs start t :
  In t source_kinds ->
  scan_inv b cs None start -> scan_inv (S b) cs (Some t) (S b).
Proof.
  intros Ht (Hs & Hw & Hk & Hc). repeat split; try assumption; try lia.
  eapply Forall_impl; [|exact Hc]. simpl; intros; lia.
Qed.

(** At the end of a file of [n] lines. *)
Lemma scan_inv_result n cs start :
  scan_inv n cs None start -> scan_result n cs.
Proof.
  intros (Hs & Hw & Hk & Hc). repeat split; try assumption.
  rewrite Forall_forall in *. intros c Hin. unfold within.
  specialize (Hw c Hin). specialize (Hc c Hin). lia.
Qed.

Lemma scan_result_whole_file text lang cs :
  scan_result (length (split_nl text)) cs ->
  scan_result (length (split_nl text))
              (whole_file_if_empty text (split_nl text) lang cs).
Proof.
  intros H. destruct cs as [|c cs]; [|exact H].
  pose proof (file_line_count_pos text) as Hpos.
  unfold file_line_count in Hpos. simpl.
  repeat split.
  - repeat constructor.
  - constructor; [unfold within; simpl; lia|constructor].
  - constructor; [unfold source_kinds; simpl; tauto|constructor].
Qed.

(** ** The Python scanner keeps the invariant *)

Lemma python_kind (s : str) :
  In (if contains (py "def") s then "function" else "class")%string
     source_kinds.
Proof. destruct (contains _ s); unfold source_kinds; simpl; tauto. Qed.

Lemma python_step_inv lines b line st :
  python_inv b st -> python_inv (S b) (Python.step lines (S b) line st).
Proof.
  unfold python_inv, Python.step. intros Hinv.
  destruct (lstrip line) as [|c stripped] eqn:Hstrip.
  { now apply scan_inv_skip. }
  destruct (startswith (py "#") (c :: stripped)).
  { now apply scan_inv_skip. }
  destruct (startswith_any _ (c :: stripped)).
  - cbn [Python.chunks Python.current_chunk Python.chunk_start].
    apply scan_inv_open with (start := 0); [apply python_kind|].
    destruct (Python.current_chunk st) as [t|] eqn:Hcur.
    + eapply scan_inv_close; [exact Hinv|reflexivity|simpl; lia|reflexivity].
    + destruct Hinv as (? & ? & ? & ?). repeat split; assumption.
  - destruct (Python.current_chunk st) as [t|] eqn:Hcur.
    + destruct (_ <=? _).
      * cbn [Python.chunks Python.current_chunk Python.chunk_start].
        eapply scan_inv_close;
          [apply scan_inv_skip; exact Hinv|reflexivity..].
      * rewrite Hcur. now apply scan_inv_skip.
    + rewrite Hcur. now apply scan_inv_skip.
Qed.

Lemma python_loop_inv lines rest : forall b st,
  python_inv b st ->
  python_inv (b + length rest) (Python.loop lines (S b) rest st).
Proof.
  induction rest as [|line rest IH]; intros b st Hinv; simpl.
  - now rewrite Nat.add_0_r.
  - replace (b + S (length rest)) with (S b + length rest) by lia.
    apply IH. now apply python_step_inv.
Qed.

Lemma parse_python_result (text : str) :
  scan_result (file_line_count text) (Python._parse_python text).
Proof.
  unfold Python._parse_python, file_line_count.
  apply scan_result_whole_file.
  pose proof (python_loop_inv (split_nl text) (split_nl text) (b := 0)
                (st := Python.init) scan_inv_init) as Hinv.
  simpl in Hinv. unfold python_inv in Hinv. unfold Python.add_remaining.
  destruct (Python.current_chunk _) as [t|].
  - eapply scan_inv_result with (start := 0).
    eapply scan_inv_close; [exact Hinv|reflexivity..].
  - eapply scan_inv_result. exact Hinv.
Qed.

(** ** The JavaScript scanner keeps the invariant *)

Lemma javascript_kind (s : str) :
  In (if contains (py "function") s then "function"
      else if contains (py "class") s then "class" else "variable")%string
     source_kinds.
Proof.
  destruct (contains (py "function") s); [unfold source_kinds; simpl; tauto|].
  destruct (contains (py "class") s); unfold source_kinds; simpl; tauto.
Qed.

Lemma javascript_open_inv lines lang b line st :
  javascript_inv b st ->
  javascript_inv (S b) (JavaScript.open_chunk lines lang (S b) line st).
Proof.
  unfold javascript_inv, JavaScript.open_chunk. intros Hinv.
  destruct (existsb _ JavaScript.keywords).
  - cbn [JavaScript.chunks JavaScript.current_chunk JavaScript.chunk_start].
    apply scan_inv_open with (start := 0); [apply javascript_kind|].
    destruct (JavaScript.current_chunk st) as [t|] eqn:Hcur.
    + eapply scan_inv_close; [exact Hinv|reflexivity|simpl; lia|reflexivity].
    + destruct Hinv as (? & ? & ? & ?). repeat split; assumption.
  - now apply scan_inv_skip.
Qed.

Lemma javascript_close_inv lines lang b line st :
  javascript_inv b st ->
  javascript_inv b (JavaScript.close_chunk lines lang b line st).
Proof.
  unfold javascript_inv, JavaScript.close_chunk. intros Hinv.
  destruct (JavaScript.current_chunk st) as [t|] eqn:Hcur.
  - destruct (_ && _).
    + cbn [JavaScript.chunks JavaScript.current_chunk JavaScript.chunk_start].
      eapply scan_inv_close; [exact Hinv|reflexivity..].
    + now rewrite Hcur.
  - now rewrite Hcur.
Qed.

Lemma javascript_step_inv lines lang b line st :
  javascript_inv b st ->
  javascript_inv (S b) (JavaScript.step lines lang (S b) line st).
Proof.
  intros Hinv. unfold JavaScript.step.
  apply javascript_close_inv.
  apply (javascript_open_inv lines lang line) in Hinv.
  exact Hinv.
Qed.

Lemma javascript_loop_inv lines lang rest : forall b st,
  javascript_inv b st ->
  javascript_inv (b + length rest)
                 (JavaScript.loop lines lang (S b) rest st).
Proof.
  induction rest as [|line rest IH]; intros b st Hinv; simpl.
  - now rewrite Nat.add_0_r.
  - replace (b + S (length rest)) with (S b + length rest) by lia.
    apply IH. now apply javascript_step_inv.
Qed.

Lemma parse_javascript_result (text : str) (lang : string) :
  scan_result (file_line_count text)
              (JavaScript._parse_javascript text lang).
Proof.
  unfold JavaScript._parse_javascript, file_line_count.
  apply scan_result_whole_file.
  pose proof (javascript_loop_inv (split_nl text) lang (split_nl text)
                (b := 0) (st := JavaScript.init) scan_inv_init) as Hinv.
  simpl in Hinv. unfold javascript_inv in Hinv.
  unfold JavaScript.add_remaining.
  destruct (JavaScript.current_chunk _) as [t|].
  - eapply scan_inv_result with (start := 0).
    eapply scan_inv_close; [exact Hinv|reflexivity..].
  - eapply scan_inv_result. exact Hinv.
Qed.

(** ** The fixed-size windows *)

Lemma range0_spec (n s i : nat) :
  0 < s -> (In i (Generic.range0 n s) <-> exists k, i = k * s /\ k * s < n).
Proof.
  intros Hs. unfold Generic.range0. rewrite in_map_iff.
  assert (Hdiv : forall k, k < (n + s - 1) / s <-> k * s < n).
  { intros k.
    pose proof (Nat.div_mod_eq (n + s - 1) s) as Heq.
    pose proof (Nat.mod_upper_bound (n + s - 1) s ltac:(lia)) as Hlt.
    split; intros Hk; nia. }
  split.
  - intros (k & <- & Hk). apply in_seq in Hk. exists k. split; [reflexivity|].
    apply Hdiv. lia.
  - intros (k & -> & Hk). exists k. split; [reflexivity|].
    apply in_seq. apply Hdiv in Hk. lia.
Qed.

Lemma range0_length (n s : nat) :
  length (Generic.range0 n s) = (n + s - 1) / s.
Proof. unfold Generic.range0. now rewrite length_map, length_seq. Qed.

Lemma range0_nth (n s k : nat) :
  k < (n + s - 1) / s -> nth_error (Generic.range0 n s) k = Some (k * s).
Proof.
  intros Hk. unfold Generic.range0.
  rewrite nth_error_map, nth_error_seq.
  apply Nat.ltb_lt in Hk. now rewrite Hk.
Qed.

Lemma StronglySorted_map_seq {A} (R : A -> A -> Prop) (g : nat -> A) :
  (forall i j, i < j -> R (g i) (g j)) ->
  forall n a, StronglySorted R (map g (seq a n)).
Proof.
  intros Hg. induction n as [|n IH]; intros a; simpl; constructor.
  - apply IH.
  - apply Forall_forall. intros x Hx. apply in_map_iff in Hx.
    destruct Hx as (j & <- & Hj). apply in_seq in Hj. apply Hg. lia.
Qed.

Lemma parse_generic_result (text : str) (lang : string) :
  scan_result (file_line_count text) (Generic._parse_generic text lang).
Proof.
  unfold Generic._parse_generic, file_line_count.
  set (n := length (split_nl text)).
  repeat split.
  - unfold Generic.range0. rewrite map_map.
    apply StronglySorted_map_seq. intros i j Hij.
    unfold before, Generic.max_chunk_size; simpl. lia.
  - apply Forall_forall. intros c Hc. apply in_map_iff in Hc.
    destruct Hc as (i & <- & Hi).
    apply range0_spec in Hi; [|unfold Generic.max_chunk_size; lia].
    destruct Hi as (k & -> & Hk).
    unfold within, Generic.max_chunk_size in *; simpl. lia.
  - apply Forall_forall. intros c Hc. apply in_map_iff in Hc.
    destruct Hc as (i & <- & _). unfold source_kinds; simpl. tauto.
Qed.

(** ** Every branch of [parse_file] *)

Lemma parse_text_result (lang : string) (text : str) :
  scan_result (file_line_count text) (CodeParser.parse_text lang text).
Proof.
  unfold CodeParser.parse_text.
  destruct (lang =? "python")%string; [apply parse_python_result|].
  destruct (_ || _); [apply parse_javascript_result|].
  unfold Generic._parse_java, Generic._parse_go, Generic._parse_rust.
  repeat (destruct (lang =? _)%string; [apply parse_generic_result|]).
  apply parse_generic_result.
Qed.

Lemma StronglySorted_nth {A} (R : A -> A -> Prop) (l : list A) :
  StronglySorted R l ->
  forall i j a b,
    i < j -> nth_error l i = Some a -> nth_error l j = Some b -> R a b.
Proof.
  induction 1 as [|x l Hl IH Hx]; intros i j a b Hij Ha Hb.
  - destruct i; discriminate.
  - destruct j as [|j]; [lia|]. simpl in Hb.
    destruct i as [|i]; simpl in Ha.
    + injection Ha as <-. rewrite Forall_forall in Hx.
      apply Hx. eapply nth_error_In; eassumption.
    + eapply IH; [|eassumption..]. lia.
Qed.

Lemma scan_result_disjoint (n : nat) (cs : list chunk) :
  scan_result n cs -> line_range_disjoint cs.
Proof.
  intros (Hs & Hw & _) i j a b Hij Ha Hb.
  pose proof (StronglySorted_nth Hs Hij Ha Hb) as Hab.
  rewrite Forall_forall in Hw.
  pose proof (Hw a (nth_error_In _ _ Ha)) as (_ & Hwa & _).
  unfold before, overlap in *. lia.
Qed.

(* ================================================================== *)
(** * The chunker: line ranges, kinds, windows *)

(** C3: for every file (with or without a top-level definition) and
    every language, the chunks come out in start-line order and no two
    of their line intervals [start_line, end_line] overlap. *)
Theorem chunks_line_range_disjoint (lang : string) (text : str) :
  line_range_disjoint (CodeParser.parse_text lang text).
Proof.
  eapply scan_result_disjoint. apply parse_text_result.
Qed.

(** C4: on the five-line file [foo_file] the Python scanner returns one
    chunk only: a function chunk that spans lines 1 to 5, the dedenting
    top-level statement included, not lines 1 to 4. *)
Theorem parse_python_foo_file :
  map (fun c => (type c, start_line c, end_line c))
      (Python._parse_python foo_file)
  = [("function"%string, 1, 5)]
  /\ map content (Python._parse_python foo_file) = [foo_file].
Proof. split; vm_compute; reflexivity. Qed.

(** C5: every chunk of a file satisfies
    [1 <= start_line <= end_line <= file_line_count], where the line
    count is the length of [content.split('\n')]. *)
Theorem chunk_lines_within_file (lang : string) (text : str) :
  Forall (within (file_line_count text)) (CodeParser.parse_text lang text).
Proof. apply parse_text_result. Qed.

(** C6, as amended: every chunk of every file in every language has a
    ['type'] among function, class, variable, file and code. *)
Theorem chunk_kind_in_source_kinds (lang : string) (text : str) :
  Forall (fun c => In (type c) source_kinds)
         (CodeParser.parse_text lang text).
Proof. apply parse_text_result. Qed.

(** C6, as stated, fails: a Go file gets a chunk whose ['type'] is
    'code', which is not one of function, class, variable, file and
    code-block. *)
Lemma chunk_kind_not_in_spec_kinds :
  ~ Forall (fun c => In (type c) spec_kinds)
           (CodeParser.parse_text "go" (py "package main")).
Proof.
  vm_compute. intros H. inversion H as [|c cs Hin _]; subst.
  repeat (destruct Hin as [Hin|Hin]; [discriminate Hin|]).
  exact Hin.
Qed.

Lemma concat_windows {A} (l : list A) (m : nat) : forall q k,
  concat (map (fun j => slice l (j * m) (j * m + m)) (seq k q))
  = slice l (k * m) ((k + q) * m).
Proof.
  induction q as [|q IH]; intros k.
  - simpl. unfold slice. rewrite Nat.add_0_r, Nat.sub_diag. reflexivity.
  - cbn [seq map concat]. rewrite IH.
    replace (S k * m) with (k * m + m) by lia.
    rewrite slice_app by nia. f_equal. lia.
Qed.

Lemma windows_cover {A} (l : list A) (m : nat) :
  0 < m ->
  concat (map (fun i => slice l i (i + m)) (Generic.range0 (length l) m)) = l.
Proof.
  intros Hm. unfold Generic.range0. rewrite map_map.
  rewrite concat_windows. unfold slice. simpl.
  rewrite Nat.sub_0_r. apply firstn_all2.
  pose proof (Nat.div_mod_eq (length l + m - 1) m) as Heq.
  pose proof (Nat.mod_upper_bound (length l + m - 1) m ltac:(lia)) as Hlt.
  nia.
Qed.

(** C7: the generic fallback cuts the lines of a file into windows of
    100: there are ceil(N/100) chunks, chunk [k] (from 0) spans lines
    [100k+1] to [min(100(k+1), N)] and holds lines[100k:100(k+1)] joined
    by newlines; the windows do not overlap, their line lists put end to
    end are the lines of the file, and their contents joined by newlines
    are the whole text. *)
Theorem parse_generic_windows (text : str) (lang : string) :
  let n := file_line_count text in
  let cs := Generic._parse_generic text lang in
  cs = map (fun k =>
              {| content :=
                   join_nl (slice (split_nl text) (100 * k) (100 * (k + 1)));
                 start_line := 100 * k + 1;
                 end_line := Nat.min (100 * (k + 1)) n;
                 type := "code";
                 language := lang |})
           (seq 0 ((n + 99) / 100))
  /\ line_range_disjoint cs
  /\ concat (map (fun k => slice (split_nl text) (100 * k) (100 * (k + 1)))
                 (seq 0 ((n + 99) / 100))) = split_nl text
  /\ join_nl (map content cs) = text.
Proof.
  intros n cs. split; [|split; [|split]].
  - subst cs n. unfold Generic._parse_generic, Generic.range0, file_line_count,
      Generic.max_chunk_size.
    rewrite map_map.
    replace (length (split_nl text) + 100 - 1)
      with (length (split_nl text) + 99) by lia.
    apply map_ext_in. intros k _.
    replace (k * 100) with (100 * k) by lia.
    replace (100 * k + 100) with (100 * (k + 1)) by lia.
    reflexivity.
  - eapply scan_result_disjoint. apply parse_generic_result.
  - pose proof (@windows_cover _ (split_nl text) 100 ltac:(lia)) as Hc.
    unfold Generic.range0 in Hc. rewrite map_map in Hc.
    replace (length (split_nl text) + 100 - 1)
      with (length (split_nl text) + 99) in Hc by lia.
    subst n. unfold file_line_count.
    etransitivity; [|exact Hc]. f_equal. apply map_ext. intros k.
    f_equal; lia.
  - subst cs. unfold Generic._parse_generic. rewrite map_map. simpl.
    rewrite <- (map_map (fun i => slice (split_nl text) i
                                   (i + Generic.max_chunk_size)) join_nl).
    rewrite join_nl_blocks.
    + rewrite windows_cover by (unfold Generic.max_chunk_size; lia).
      apply join_split_nl.
    + apply Forall_forall. intros b Hb. apply in_map_iff in Hb.
      destruct Hb as (i & <- & Hi).
      apply range0_spec in Hi; [|unfold Generic.max_chunk_size; lia].
      destruct Hi as (k & -> & Hk).
      apply slice_not_nil; unfold Generic.max_chunk_size in *; lia.
Qed.

(** C8, as stated, fails: for Go, a language of the generic family, the
    one chunk of the empty file has ['type'] 'code', not 'file'. *)
Lemma empty_go_file_not_file_kind :
  ~ exists c, CodeParser.parse_text "go" [] = [c] /\ type c = "file"%string.
Proof.
  intros (c & Hc & Ht). vm_compute in Hc.
  injection Hc as <-. discriminate Ht.
Qed.

(** C8, as amended: in every language the empty file yields exactly one
    chunk, with empty content and lines 1 to 1; its ['type'] is 'file'
    for Python, JavaScript and TypeScript and 'code' for every language
    that goes through the generic parser. *)
Theorem parse_empty_file (lang : string) :
  CodeParser.parse_text lang []
  = [{| content := [];
        start_line := 1;
        end_line := 1;
        type := if ((lang =? "python") || (lang =? "javascript")
                    || (lang =? "typescript"))%string
                then "file" else "code";
        language := lang |}].
Proof.
  unfold CodeParser.parse_text.
  destruct (lang =? "python")%string eqn:Hpy.
  { apply String.eqb_eq in Hpy. subst lang. reflexivity. }
  cbn [orb].
  destruct ((lang =? "javascript") || (lang =? "typescript"))%string eqn:Hjs.
  { reflexivity. }
  destruct (lang =? "java")%string eqn:Hjava.
  { apply String.eqb_eq in Hjava. subst lang. reflexivity. }
  destruct (lang =? "go")%string eqn:Hgo.
  { apply String.eqb_eq in Hgo. subst lang. reflexivity. }
  destruct (lang =? "rust")%string eqn:Hrust.
  { apply String.eqb_eq in Hrust. subst lang. reflexivity. }
  reflexivity.
Qed.

(* ================================================================== *)
(** * [parse_file] never raises *)

(** C2: [parse_file] returns normally for every file, whatever the file
    system does: when the file is read it returns the chunks of its
    text and logs nothing, and when reading raises it returns no chunk
    and logs one warning.  In the indexing pass such a file leaves the
    pending points and the vector store as they were and the loop goes
    on with the next file; the pass as a whole returns normally. *)
Theorem parse_file_never_raises
        (fs : filesystem) (http : http_client) (qd : qdrant) (h : hashlib)
        (host : str) (root : Path) (file_path : Path) (w : Indexer.world) :
  (exists cs w', CodeParser.parse_file fs file_path w = (inr cs, w'))
  /\ (forall text,
        read_text fs file_path = inr text ->
        CodeParser.parse_file fs file_path w
        = (inr (CodeParser.parse_text (CodeParser._detect_language file_path)
                                      text), w))
  /\ (forall e,
        read_text fs file_path = inl e ->
        CodeParser.parse_file fs file_path w
        = (inr [],
           add_log {| lvl := Warning; event := "Failed to parse file";
                      fields := [("file", path_str file_path);
                                 ("error", str_of_exn e)]%string |} w)
        /\ forall workspace project_path nfiles i files,
             Indexer.index_file fs http qd h host root workspace project_path
                                nfiles i file_path w
             = (inr tt,
                add_log {| lvl := Warning; event := "Failed to parse file";
                           fields := [("file", path_str file_path);
                                      ("error", str_of_exn e)]%string |} w)
             /\ Indexer.index_files fs http qd h host root workspace
                                    project_path nfiles i (file_path :: files) w
                = Indexer.index_files fs http qd h host root workspace
                    project_path nfiles (S i) files
                    (add_log {| lvl := Warning;
                                event := "Failed to parse file";
                                fields := [("file", path_str file_path);
                                           ("error", str_of_exn e)]%string |}
                             w))
  /\ (forall project_path,
        exists w', Indexer.perform_indexing fs http qd h host root
                                            project_path w = (inr tt, w')).
Proof.
  assert (Hread : forall text,
             read_text fs file_path = inr text ->
             CodeParser.parse_file fs file_path w
             = (inr (CodeParser.parse_text
                       (CodeParser._detect_language file_path) text), w)).
  { intros text Hr. unfold CodeParser.parse_file, try_except, bind, lift.
    rewrite Hr. reflexivity. }
  assert (Hfail : forall e,
             read_text fs file_path = inl e ->
             CodeParser.parse_file fs file_path w
             = (inr [],
                add_log {| lvl := Warning; event := "Failed to parse file";
                           fields := [("file", path_str file_path);
                                      ("error", str_of_exn e)]%string |} w)).
  { intros e Hr. unfold CodeParser.parse_file, try_except, bind, lift.
    rewrite Hr. reflexivity. }
  split; [|split; [exact Hread|split]].
  - destruct (read_text fs file_path) as [e|text] eqn:Hr.
    + eexists _, _. now apply Hfail.
    + eexists _, _. now apply Hread.
  - intros e Hr. split; [now apply Hfail|].
    intros workspace project_path nfiles i files.
    assert (Hfile : Indexer.index_file fs http qd h host root workspace
                      project_path nfiles i file_path w
                    = (inr tt,
                       add_log {| lvl := Warning;
                                  event := "Failed to parse file";
                                  fields := [("file", path_str file_path);
                                             ("error", str_of_exn e)]%string |}
                               w)).
    { unfold Indexer.index_file, try_except, bind.
      rewrite (Hfail e Hr). reflexivity. }
    split; [exact Hfile|].
    cbn [Indexer.index_files]. unfold bind at 1. rewrite Hfile. reflexivity.
  - intros project_path. unfold Indexer.perform_indexing, try_except.
    match goal with
    | |- exists w', match ?body w with _ => _ end = _ =>
        destruct (body w) as [[e|[]] w1]
    end; eexists; reflexivity.
Qed.

(* ================================================================== *)
(** * Point identifiers *)

Lemma digit_value_hex_digit (d : N) :
  (d < 16)%N -> Hex.digit_value (Hex.hex_digit d) = Some d.
Proof.
  intros Hd. unfold Hex.digit_value, Hex.hex_digit.
  destruct (d <? 10)%N eqn:H10.
  - apply N.ltb_lt in H10.
    replace ((48 <=? 48 + d) && (48 + d <=? 57))%N with true.
    + f_equal. lia.
    + symmetry. apply andb_true_iff. split; apply N.leb_le; lia.
  - apply N.ltb_ge in H10.
    replace ((48 <=? 87 + d) && (87 + d <=? 57))%N with false.
    + replace ((97 <=? 87 + d) && (87 + d <=? 102))%N with true.
      * f_equal. lia.
      * symmetry. apply andb_true_iff. split; apply N.leb_le; lia.
    + symmetry. apply andb_false_iff. right. apply N.leb_gt. lia.
Qed.

(** The first eight digits of a digest always read as a number below
    [2^32]. *)
Lemma int16_hexdigest_prefix (digest : N) :
  exists n, Hex.int16 (firstn 8 (Hex.hexdigest digest)) = inr n
            /\ (n < 2 ^ 32)%N.
Proof.
  unfold Hex.hexdigest. cbn [seq map firstn].
  repeat match goal with
         | |- context [Hex.hex_digit (?x mod 16)%N] =>
             let d := fresh "d" in
             let Hd := fresh "Hd" in
             assert (Hd : (x mod 16 < 16)%N) by (apply N.mod_lt; discriminate);
             set (d := (x mod 16)%N) in *; clearbody d
         end.
  unfold Hex.int16. cbn [Hex.int16_digits].
  rewrite !digit_value_hex_digit by assumption.
  eexists. split; [reflexivity|]. change (2 ^ 32)%N with 4294967296%N. lia.
Qed.

(** [encode] fails exactly on strings that hold a surrogate. *)
Lemma encode_eq (s : str) :
  encode s = if forallb is_scalar s then inr (flat_map utf8_char s)
             else inl (Exception (py "UnicodeEncodeError")).
Proof.
  induction s as [|c s IH]; [reflexivity|].
  cbn [encode forallb flat_map]. rewrite IH.
  destruct (is_scalar c); [|reflexivity].
  now destruct (forallb is_scalar s).
Qed.

Lemma py_scalar (s : string) : forallb is_scalar (py s) = true.
Proof.
  unfold py. apply forallb_forall. intros c Hc.
  apply in_map_iff in Hc. destruct Hc as (a & <- & _).
  pose proof (N_ascii_bounded a) as Ha.
  unfold is_scalar. apply orb_true_iff. left. apply N.ltb_lt. lia.
Qed.

(** The key that is hashed can be encoded exactly when the path can. *)
Lemma key_scalar (path : str) (a b : nat) :
  forallb is_scalar (path ++ py ":" ++ str_of_nat a ++ py ":" ++ str_of_nat b)
  = forallb is_scalar path.
Proof.
  unfold str_of_nat. rewrite !forallb_app, !py_scalar.
  now rewrite !andb_true_r.
Qed.

Lemma point_id_total (h : hashlib) (file_path : Path) (c : chunk) :
  forallb is_scalar (path_str file_path) = true ->
  exists n, Indexer.point_id h file_path c = inr n /\ (n < 2 ^ 32)%N.
Proof.
  intros Hpath. unfold Indexer.point_id.
  rewrite encode_eq, key_scalar, Hpath. apply int16_hexdigest_prefix.
Qed.

Lemma make_point_id fs http h host root workspace project_path file_path c
      (w w' : Indexer.world) (p : PointStruct) :
  Indexer.make_point fs http h host root workspace project_path file_path c w
  = (inr p, w') ->
  Indexer.point_id h file_path c = inr (id p).
Proof.
  unfold Indexer.make_point, bind.
  destruct (EmbeddingGenerator.generate_embedding host http (content c) w)
    as [[e|embedding] w1]; [discriminate|].
  destruct (Indexer.point_id h file_path c) as [e|n]; simpl; [discriminate|].
  destruct (relative_to fs file_path workspace) as [e|rel]; simpl;
    [discriminate|].
  destruct (Indexer.truthy project_path); simpl.
  - destruct (relative_to fs workspace root) as [e|r]; simpl; [discriminate|].
    intros Heq. injection Heq as <- _. reflexivity.
  - intros Heq. injection Heq as <- _. reflexivity.
Qed.

(** C1: the identifier is a function of the file path, the start line
    and the end line: two chunks of one file with the same two line
    numbers get the same identifier whatever their content, kind and
    language, and so do the points built from them during indexing,
    whatever the embedding service, the file system and the log are. *)
Theorem point_id_content_independent
        (h : hashlib) (file_path : Path) (c1 c2 : chunk) :
  start_line c1 = start_line c2 ->
  end_line c1 = end_line c2 ->
  Indexer.point_id h file_path c1 = Indexer.point_id h file_path c2
  /\ forall fs1 fs2 http1 http2 host1 host2 root1 root2 workspace1 workspace2
            project1 project2 (w1 w2 w1' w2' : Indexer.world) p1 p2,
       Indexer.make_point fs1 http1 h host1 root1 workspace1 project1
                          file_path c1 w1 = (inr p1, w1') ->
       Indexer.make_point fs2 http2 h host2 root2 workspace2 project2
                          file_path c2 w2 = (inr p2, w2') ->
       id p1 = id p2.
Proof.
  intros Hs He.
  assert (Hid : Indexer.point_id h file_path c1
                = Indexer.point_id h file_path c2).
  { unfold Indexer.point_id. now rewrite Hs, He. }
  split; [exact Hid|].
  intros fs1 fs2 http1 http2 host1 host2 root1 root2 workspace1 workspace2
         project1 project2 w1 w2 w1' w2' p1 p2 H1 H2.
  apply make_point_id in H1. apply make_point_id in H2.
  rewrite Hid, H2 in H1. now injection H1.
Qed.

(* ================================================================== *)
(** * The embedder's fallback *)

Lemma zero_vector_shape :
  exists items, EmbeddingGenerator.zero_vector = JArr items
                /\ length items = 768
                /\ Forall (fun x => x = JNum 0%Q) items.
Proof.
  eexists. split; [reflexivity|]. split; [apply repeat_length|].
  apply Forall_forall. intros x Hx. now apply repeat_spec in Hx.
Qed.

(** C9: when the call to the embedding service raises (transport
    error, error status, undecodable body), [generate_embedding] logs an
    error and returns the vector of 768 zeros instead of raising; when
    the service answers with a dictionary that has an ["embedding"]
    entry, it returns that entry unchanged and logs nothing.  The text
    sent is the first 8192 characters of the input. *)
Theorem generate_embedding_fallback
        {W} `{Logged W} (host : str) (http : http_client) (text : str)
        (w : W) :
  let url := host ++ py "/api/embeddings" in
  let payload := {| model := "nomic-embed-text";
                    prompt := firstn (N.to_nat 8192) text |} in
  (forall e,
     post http url payload = inl e ->
     EmbeddingGenerator.generate_embedding host http text w
     = (inr (JArr (repeat (JNum 0%Q) 768)),
        add_log {| lvl := Error; event := "Failed to generate embedding";
                   fields := [("error", str_of_exn e)]%string |} w))
  /\ (forall members kv,
        post http url payload = inr (JObj members) ->
        find (fun kv => (fst kv =? "embedding")%string) members = Some kv ->
        EmbeddingGenerator.generate_embedding host http text w
        = (inr (snd kv), w)).
Proof.
  intros url payload. split.
  - intros e He.
    unfold EmbeddingGenerator.generate_embedding, try_except, bind, lift.
    fold url. fold payload.
    change {| model := EmbeddingGenerator.embedding_model;
              prompt := firstn (N.to_nat 8192) text |} with payload.
    rewrite He. reflexivity.
  - intros members kv Hp Hfind.
    unfold EmbeddingGenerator.generate_embedding, try_except, bind, lift.
    change {| model := EmbeddingGenerator.embedding_model;
              prompt := firstn (N.to_nat 8192) text |} with payload.
    fold url. rewrite Hp. cbv beta iota delta [ret raise dict_get].
    rewrite Hfind. reflexivity.
Qed.

(* ================================================================== *)
(** * The query embedding *)

(** When the call to the embedding service raises,
    [generate_query_embedding] logs an error and raises the same
    exception again. *)
Lemma generate_query_embedding_reraises
      {W} `{Logged W} (http : http_client) (host : str) (q : str) (w : W)
      (e : exn) :
  post http (host ++ py "/api/embeddings")
       {| model := "nomic-embed-text";
          prompt := firstn (N.to_nat 8192) q |} = inl e ->
  RagChat.generate_query_embedding http host q w
  = (inl e,
     add_log {| lvl := Error;
                event := "Failed to generate query embedding";
                fields := [("error", str_of_exn e)]%string |} w).
Proof.
  intros He.
  unfold RagChat.generate_query_embedding, try_except, bind, lift.
  rewrite He. reflexivity.
Qed.

(* ================================================================== *)
(** * The theorems at sample inputs *)

(** C1 at two chunks on lines 1 to 4 with different content. *)
Lemma point_id_content_independent_witness :
  content Samples.chunk_one <> content Samples.chunk_two
  /\ Indexer.point_id Samples.length_hash Samples.a_py Samples.chunk_one
     = Indexer.point_id Samples.length_hash Samples.a_py Samples.chunk_two.
Proof.
  split; [discriminate|].
  exact (proj1 (point_id_content_independent Samples.length_hash Samples.a_py
                  Samples.chunk_one Samples.chunk_two eq_refl eq_refl)).
Defined.

(** C2 at a file that cannot be read. *)
Lemma parse_file_never_raises_witness :
  read_text Samples.unreadable Samples.a_py
  = inl (Exception (py "Permission denied"))
  /\ CodeParser.parse_file Samples.unreadable Samples.a_py Samples.empty_world
     = (inr [],
        add_log {| lvl := Warning; event := "Failed to parse file";
                   fields := [("file", path_str Samples.a_py);
                              ("error", py "Permission denied")]%string |}
                Samples.empty_world).
Proof.
  split; [reflexivity|].
  exact (proj1
           (proj1 (proj2 (proj2
              (parse_file_never_raises Samples.unreadable Samples.service_down
                 Samples.store_down Samples.length_hash Samples.host
                 Samples.root Samples.a_py Samples.empty_world)))
              (Exception (py "Permission denied")) eq_refl)).
Defined.

(** C9 at a service that cannot be reached. *)
Lemma generate_embedding_fallback_witness :
  post Samples.service_down (Samples.host ++ py "/api/embeddings")
       {| model := "nomic-embed-text";
          prompt := firstn (N.to_nat 8192) (py "def f(): pass") |}
  = inl (Exception (py "Connection refused"))
  /\ EmbeddingGenerator.generate_embedding
       Samples.host Samples.service_down (py "def f(): pass")
       (@nil log_entry)
     = (inr (JArr (repeat (JNum 0%Q) 768)),
        add_log {| lvl := Error; event := "Failed to generate embedding";
                   fields := [("error", py "Connection refused")]%string |}
                (@nil log_entry)).
Proof.
  split; [reflexivity|].
  exact (proj1
           (generate_embedding_fallback Samples.host Samples.service_down
              (py "def f(): pass") (@nil log_entry))
           (Exception (py "Connection refused")) eq_refl).
Defined.

(* ================================================================== *)
(** * More on the chunker: what a chunk holds *)

Lemma slice_to_end {A} (l : list A) (a : nat) :
  slice l a (length l) = skipn a l.
Proof.
  unfold slice. apply firstn_all2. rewrite length_skipn. lia.
Qed.

Lemma slice_min_end {A} (l : list A) (a b : nat) :
  slice l a (Nat.min b (length l)) = slice l a b.
Proof.
  unfold slice. destruct (Nat.le_ge_cases b (length l)) as [Hb|Hb].
  - now rewrite Nat.min_l.
  - rewrite Nat.min_r by assumption.
    rewrite !firstn_all2; rewrite ?length_skipn; try reflexivity; lia.
Qed.

Lemma slice_all {A} (l : list A) : slice l 0 (length l) = l.
Proof. rewrite slice_to_end. reflexivity. Qed.

Lemma python_step_built lines i line st :
  Forall (fun c => language c = "python"%string /\ content_matches lines c)
         (Python.chunks st) ->
  Forall (fun c => language c = "python"%string /\ content_matches lines c)
         (Python.chunks (Python.step lines i line st)).
Proof.
  intros Hst. unfold Python.step.
  destruct (lstrip line) as [|x stripped]; [exact Hst|].
  destruct (startswith _ _); [exact Hst|].
  destruct (startswith_any _ _).
  - cbn [Python.chunks]. destruct (Python.current_chunk st); [|exact Hst].
    apply Forall_app. split; [exact Hst|].
    constructor; [|constructor]. split; reflexivity.
  - destruct (Python.current_chunk st); [|exact Hst].
    destruct (_ <=? _); [|exact Hst].
    cbn [Python.chunks]. apply Forall_app. split; [exact Hst|].
    constructor; [|constructor]. split; reflexivity.
Qed.

Lemma python_loop_built lines rest : forall i st,
  Forall (fun c => language c = "python"%string /\ content_matches lines c)
         (Python.chunks st) ->
  Forall (fun c => language c = "python"%string /\ content_matches lines c)
         (Python.chunks (Python.loop lines i rest st)).
Proof.
  induction rest as [|line rest IH]; intros i st Hst; simpl; [exact Hst|].
  apply IH. now apply python_step_built.
Qed.

Lemma whole_file_built text lang cs :
  Forall (fun c => language c = lang /\ content_matches (split_nl text) c) cs ->
  Forall (fun c => language c = lang /\ content_matches (split_nl text) c)
         (whole_file_if_empty text (split_nl text) lang cs).
Proof.
  intros Hcs. destruct cs as [|c cs]; [|exact Hcs].
  constructor; [|constructor]. split; [reflexivity|].
  unfold content_matches. simpl.
  rewrite (slice_all (split_nl text)). symmetry. apply join_split_nl.
Qed.

Lemma parse_python_built (text : str) :
  Forall (fun c => language c = "python"%string
                   /\ content_matches (split_nl text) c)
         (Python._parse_python text).
Proof.
  unfold Python._parse_python. apply whole_file_built.
  pose proof (@python_loop_built (split_nl text) (split_nl text) 1
                Python.init (Forall_nil _)) as Hloop.
  unfold Python.add_remaining.
  destruct (Python.current_chunk _); [|exact Hloop].
  apply Forall_app. split; [exact Hloop|].
  constructor; [|constructor]. split; [reflexivity|].
  unfold content_matches, slice_from. simpl. now rewrite slice_to_end.
Qed.

Lemma javascript_step_built lines lang i line st :
  Forall (fun c => language c = lang /\ content_matches lines c)
         (JavaScript.chunks st) ->
  Forall (fun c => language c = lang /\ content_matches lines c)
         (JavaScript.chunks (JavaScript.step lines lang i line st)).
Proof.
  intros Hst. unfold JavaScript.step.
  assert (Hopen : Forall (fun c => language c = lang
                                   /\ content_matches lines c)
                         (JavaScript.chunks
                            (JavaScript.open_chunk lines lang i line st))).
  { unfold JavaScript.open_chunk. destruct (existsb _ _); [|exact Hst].
    cbn [JavaScript.chunks].
    destruct (JavaScript.current_chunk st); [|exact Hst].
    apply Forall_app. split; [exact Hst|].
    constructor; [|constructor]. split; reflexivity. }
  unfold JavaScript.close_chunk.
  cbn [JavaScript.current_chunk JavaScript.track_braces JavaScript.chunks
       JavaScript.brace_count JavaScript.chunk_start].
  destruct (JavaScript.current_chunk _); [|exact Hopen].
  destruct (_ && _); [|exact Hopen].
  cbn [JavaScript.chunks]. apply Forall_app. split; [exact Hopen|].
  constructor; [|constructor]. split; reflexivity.
Qed.

Lemma javascript_loop_built lines lang rest : forall i st,
  Forall (fun c => language c = lang /\ content_matches lines c)
         (JavaScript.chunks st) ->
  Forall (fun c => language c = lang /\ content_matches lines c)
         (JavaScript.chunks (JavaScript.loop lines lang i rest st)).
Proof.
  induction rest as [|line rest IH]; intros i st Hst; simpl; [exact Hst|].
  apply IH. now apply javascript_step_built.
Qed.

Lemma parse_javascript_built (text : str) (lang : string) :
  Forall (fun c => language c = lang /\ content_matches (split_nl text) c)
         (JavaScript._parse_javascript text lang).
Proof.
  unfold JavaScript._parse_javascript. apply whole_file_built.
  pose proof (@javascript_loop_built (split_nl text) lang (split_nl text) 1
                JavaScript.init (Forall_nil _)) as Hloop.
  unfold JavaScript.add_remaining.
  destruct (JavaScript.current_chunk _); [|exact Hloop].
  apply Forall_app. split; [exact Hloop|].
  constructor; [|constructor]. split; [reflexivity|].
  unfold content_matches, slice_from. simpl. now rewrite slice_to_end.
Qed.

Lemma parse_generic_built (text : str) (lang : string) :
  Forall (fun c => language c = lang /\ content_matches (split_nl text) c)
         (Generic._parse_generic text lang).
Proof.
  unfold Generic._parse_generic. apply Forall_forall. intros c Hc.
  apply in_map_iff in Hc. destruct Hc as (i & <- & _).
  split; [reflexivity|]. unfold content_matches. simpl.
  rewrite Nat.add_sub. now rewrite slice_min_end.
Qed.

Lemma parse_text_built (lang : string) (text : str) :
  Forall (fun c => language c = lang /\ content_matches (split_nl text) c)
         (CodeParser.parse_text lang text).
Proof.
  unfold CodeParser.parse_text.
  destruct (lang =? "python")%string eqn:Hpy.
  { apply String.eqb_eq in Hpy. subst lang. apply parse_python_built. }
  destruct (_ || _); [apply parse_javascript_built|].
  unfold Generic._parse_java, Generic._parse_go, Generic._parse_rust.
  destruct (lang =? "java")%string eqn:Hjava.
  { apply String.eqb_eq in Hjava. subst lang. apply parse_generic_built. }
  destruct (lang =? "go")%string eqn:Hgo.
  { apply String.eqb_eq in Hgo. subst lang. apply parse_generic_built. }
  destruct (lang =? "rust")%string eqn:Hrust.
  { apply String.eqb_eq in Hrust. subst lang. apply parse_generic_built. }
  apply parse_generic_built.
Qed.

(** X1: in every language, the content of every chunk is exactly the
    lines [start_line .. end_line] of the file joined by newlines. *)
Theorem chunk_content_matches_lines (lang : string) (text : str) :
  Forall (content_matches (split_nl text)) (CodeParser.parse_text lang text).
Proof.
  eapply Forall_impl; [|apply parse_text_built]. simpl. now intros c (_ & Hc).
Qed.

(** X2: every chunk carries the language the file was dispatched on,
    also in the parsers that write the language as a literal. *)
Theorem chunk_language_is_dispatch_language (lang : string) (text : str) :
  Forall (fun c => language c = lang) (CodeParser.parse_text lang text).
Proof.
  eapply Forall_impl; [|apply parse_text_built]. simpl. now intros c (Hc & _).
Qed.

Lemma range0_not_nil (n s : nat) : 0 < s -> 0 < n -> Generic.range0 n s <> [].
Proof.
  intros Hs Hn Hnil. apply (f_equal (@length nat)) in Hnil.
  rewrite range0_length in Hnil. simpl in Hnil.
  pose proof (Nat.div_mod_eq (n + s - 1) s) as Heq.
  pose proof (Nat.mod_upper_bound (n + s - 1) s ltac:(lia)) as Hlt.
  nia.
Qed.

Lemma parse_text_not_nil (lang : string) (text : str) :
  CodeParser.parse_text lang text <> [].
Proof.
  assert (Hwhole : forall lines l cs,
             whole_file_if_empty text lines l cs <> []).
  { intros lines l cs. destruct cs; discriminate. }
  assert (Hgen : forall l, Generic._parse_generic text l <> []).
  { intros l Hnil. unfold Generic._parse_generic in Hnil.
    apply map_eq_nil in Hnil. revert Hnil. apply range0_not_nil.
    - unfold Generic.max_chunk_size. lia.
    - apply file_line_count_pos. }
  unfold CodeParser.parse_text.
  destruct (lang =? "python")%string; [apply Hwhole|].
  destruct (_ || _); [apply Hwhole|].
  unfold Generic._parse_java, Generic._parse_go, Generic._parse_rust.
  repeat (destruct (lang =? _)%string; [apply Hgen|]). apply Hgen.
Qed.

(** X3: a file that can be read always yields at least one chunk, so
    [parse_file] returns the empty list exactly when reading the file
    raised. *)
Theorem no_chunks_iff_unreadable
        {W} `{Logged W} (fs : filesystem) (file_path : Path) (w : W) :
  (forall lang text, CodeParser.parse_text lang text <> [])
  /\ ((exists w', CodeParser.parse_file fs file_path w = (inr [], w'))
      <-> exists e, read_text fs file_path = inl e).
Proof.
  split; [apply parse_text_not_nil|].
  unfold CodeParser.parse_file, try_except, bind, lift.
  destruct (read_text fs file_path) as [e|text]; simpl.
  - split; [intros _; now exists e|]. intros _. eexists. reflexivity.
  - split.
    + intros (w' & Heq). injection Heq as Hnil _.
      now apply parse_text_not_nil in Hnil.
    + intros (e & He). discriminate He.
Qed.

(* ================================================================== *)
(** * More on the Python scanner: where chunks open and close *)

(** The loop body, written with the predicates on lines. *)
Lemma python_step_eq lines i line st :
  Python.step lines i line st
  = if python_skipped line then st
    else if python_definition line then
      {| Python.chunks :=
           match Python.current_chunk st with
           | Some t =>
               Python.chunks st ++
               [{| content :=
                     join_nl (slice lines (Python.chunk_start st - 1) (i - 1));
                   start_line := Python.chunk_start st;
                   end_line := i - 1;
                   type := t;
                   language := "python" |}]
           | None => Python.chunks st
           end;
         Python.current_chunk := Some (python_label line);
         Python.current_indent := indent_of line;
         Python.chunk_start := i |}
    else
      match Python.current_chunk st with
      | Some t =>
          if indent_of line <=? Python.current_indent st then
            {| Python.chunks :=
                 Python.chunks st ++
                 [{| content :=
                       join_nl (slice lines (Python.chunk_start st - 1) i);
                     start_line := Python.chunk_start st;
                     end_line := i;
                     type := t;
                     language := "python" |}];
               Python.current_chunk := None;
               Python.current_indent := Python.current_indent st;
               Python.chunk_start := Python.chunk_start st |}
          else st
      | None => st
      end.
Proof.
  unfold Python.step, python_definition, python_skipped, python_label,
    indent_of.
  destruct (lstrip line) as [|x stripped]; [reflexivity|].
  cbv beta iota zeta.
  destruct (startswith (py "#") (x :: stripped)); [reflexivity|].
  cbn [negb andb].
  destruct (startswith_any _ (x :: stripped)); reflexivity.
Qed.

(** The facts the scanner has gathered once [b] lines are consumed. *)
Lemma python_step_shape lines pre line rest st :
  lines = pre ++ line :: rest ->
  (Forall (fun c => python_opened_at lines c /\ python_closed_at lines c)
          (Python.chunks st)
   /\ forall t, Python.current_chunk st = Some t ->
        exists first,
          nth_error lines (Python.chunk_start st - 1) = Some first
          /\ python_definition first = true
          /\ t = python_label first
          /\ Python.current_indent st = indent_of first
          /\ Python.chunk_start st <= length pre) ->
  let st' := Python.step lines (S (length pre)) line st in
  Forall (fun c => python_opened_at lines c /\ python_closed_at lines c)
         (Python.chunks st')
  /\ forall t, Python.current_chunk st' = Some t ->
       exists first,
         nth_error lines (Python.chunk_start st' - 1) = Some first
         /\ python_definition first = true
         /\ t = python_label first
         /\ Python.current_indent st' = indent_of first
         /\ Python.chunk_start st' <= S (length pre).
Proof.
  intros Hlines (Hcs & Hcur) st'. subst st'.
  assert (Hnth : nth_error lines (length pre) = Some line).
  { subst lines. rewrite nth_error_app2 by lia.
    now rewrite Nat.sub_diag. }
  assert (Hkeep : forall t, Python.current_chunk st = Some t ->
             exists first,
               nth_error lines (Python.chunk_start st - 1) = Some first
               /\ python_definition first = true
               /\ t = python_label first
               /\ Python.current_indent st = indent_of first
               /\ Python.chunk_start st <= S (length pre)).
  { intros t Ht. destruct (Hcur t Ht) as (f & ? & ? & ? & ? & ?).
    exists f. repeat split; try assumption. lia. }
  rewrite python_step_eq.
  destruct (python_skipped line) eqn:Hskip; [now split|].
  destruct (python_definition line) eqn:Hdef.
  - cbn [Python.chunks Python.current_chunk Python.chunk_start
         Python.current_indent].
    split.
    + destruct (Python.current_chunk st) as [t|] eqn:Ht; [|exact Hcs].
      apply Forall_app. split; [exact Hcs|]. constructor; [|constructor].
      destruct (Hcur t eq_refl) as (first & Hf & Hfd & Hfl & _ & _).
      split.
      * exists first. simpl. auto.
      * right; left. exists line. simpl.
        rewrite Nat.sub_0_r. auto.
    + intros t Ht. injection Ht as <-. exists line.
      simpl. rewrite Nat.sub_0_r. repeat split; auto.
  - destruct (Python.current_chunk st) as [t|] eqn:Ht; [|split; [exact Hcs|]].
    + destruct (indent_of line <=? Python.current_indent st) eqn:Hle.
      * cbn [Python.chunks Python.current_chunk]. split; [|discriminate].
        apply Forall_app. split; [exact Hcs|]. constructor; [|constructor].
        destruct (Hcur t eq_refl) as (first & Hf & Hfd & Hfl & Hfi & Hfs).
        apply Nat.leb_le in Hle.
        split.
        -- exists first. simpl. auto.
        -- right; right. exists first, line. simpl.
           rewrite Nat.sub_0_r. repeat split; auto; lia.
      * split; [exact Hcs|]. rewrite Ht. exact Hkeep.
    + rewrite Ht. exact Hkeep.
Qed.

Lemma python_loop_shape lines rest : forall pre st,
  lines = pre ++ rest ->
  (Forall (fun c => python_opened_at lines c /\ python_closed_at lines c)
          (Python.chunks st)
   /\ forall t, Python.current_chunk st = Some t ->
        exists first,
          nth_error lines (Python.chunk_start st - 1) = Some first
          /\ python_definition first = true
          /\ t = python_label first
          /\ Python.current_indent st = indent_of first
          /\ Python.chunk_start st <= length pre) ->
  let st' := Python.loop lines (S (length pre)) rest st in
  Forall (fun c => python_opened_at lines c /\ python_closed_at lines c)
         (Python.chunks st')
  /\ forall t, Python.current_chunk st' = Some t ->
       exists first,
         nth_error lines (Python.chunk_start st' - 1) = Some first
         /\ python_definition first = true
         /\ t = python_label first.
Proof.
  induction rest as [|line rest IH]; intros pre st Hlines Hst; simpl.
  - destruct Hst as (Hcs & Hcur). split; [exact Hcs|].
    intros t Ht. destruct (Hcur t Ht) as (f & ? & ? & ? & _).
    exists f. auto.
  - pose proof (python_step_shape pre line rest st Hlines Hst) as Hstep.
    specialize (IH (pre ++ [line]) (Python.step lines (S (length pre)) line st)).
    rewrite length_app in IH. simpl in IH.
    rewrite Nat.add_1_r in IH. apply IH.
    + now rewrite <- app_assoc.
    + exact Hstep.
Qed.

Lemma python_remaining_shape (text : str) :
  Forall (fun c => python_opened_at (split_nl text) c
                   /\ python_closed_at (split_nl text) c)
         (Python.add_remaining (split_nl text)
            (Python.loop (split_nl text) 1 (split_nl text) Python.init)).
Proof.
  pose proof (@python_loop_shape (split_nl text) (split_nl text) []
                Python.init eq_refl) as Hloop.
  simpl in Hloop.
  destruct Hloop as (Hcs & Hcur).
  { split; [constructor|discriminate]. }
  unfold Python.add_remaining.
  destruct (Python.current_chunk _) as [t|]; [|exact Hcs].
  apply Forall_app. split; [exact Hcs|]. constructor; [|constructor].
  destruct (Hcur t eq_refl) as (first & Hf & Hfd & Hfl).
  split.
  - exists first. simpl. auto.
  - left. reflexivity.
Qed.

Lemma existsb_false_Forall {A} (f : A -> bool) (l : list A) :
  existsb f l = false -> Forall (fun x => f x = false) l.
Proof.
  induction l as [|x l IH]; simpl; intros H; constructor.
  - now apply orb_false_iff in H.
  - apply IH. now apply orb_false_iff in H.
Qed.

Lemma python_loop_idle lines rest : forall i st,
  Forall (fun l => python_definition l = false) rest ->
  Python.current_chunk st = None ->
  Python.loop lines i rest st = st.
Proof.
  induction rest as [|line rest IH]; intros i st Hrest Hnone; [reflexivity|].
  inversion Hrest as [|? ? Hline Hrest']; subst. simpl.
  assert (Hstep : Python.step lines i line st = st).
  { rewrite python_step_eq, Hline, Hnone. now destruct (python_skipped line). }
  rewrite Hstep. now apply IH.
Qed.

Lemma python_step_started lines i line st :
  python_definition line = true
  \/ Python.chunks st <> [] \/ Python.current_chunk st <> None ->
  Python.chunks (Python.step lines i line st) <> []
  \/ Python.current_chunk (Python.step lines i line st) <> None.
Proof.
  intros H. rewrite python_step_eq.
  destruct (python_skipped line) eqn:Hskip.
  { destruct H as [Hdef|H]; [|exact H].
    unfold python_definition in Hdef. rewrite Hskip in Hdef. discriminate. }
  destruct (python_definition line); [right; discriminate|].
  destruct H as [Hdef|H]; [discriminate|].
  destruct (Python.current_chunk st) as [t|] eqn:Ht;
    [|rewrite Ht; exact H].
  destruct (_ <=? _); [|rewrite Ht; exact H].
  left. cbn [Python.chunks]. now destruct (Python.chunks st).
Qed.

Lemma python_loop_started lines rest : forall i st,
  existsb python_definition rest = true
  \/ Python.chunks st <> [] \/ Python.current_chunk st <> None ->
  Python.chunks (Python.loop lines i rest st) <> []
  \/ Python.current_chunk (Python.loop lines i rest st) <> None.
Proof.
  induction rest as [|line rest IH]; intros i st H; simpl in *.
  - destruct H as [H|H]; [discriminate|exact H].
  - apply IH.
    destruct (python_definition line) eqn:Hdef.
    + right. apply python_step_started. now left. 
    + destruct H as [H|H]; [now left|].
      right. apply python_step_started. now right.
Qed.

(** X4: when some line of a Python file is a definition line (its
    first non-blank text starts with [def ], [class ] or [async def ]),
    every chunk starts on such a line and is labelled 'function' when
    that line contains [def] and 'class' otherwise; when no line is,
    the result is the single whole-file chunk. *)
Theorem python_chunks_open_at_definitions (text : str) :
  if existsb python_definition (split_nl text)
  then Forall (python_opened_at (split_nl text)) (Python._parse_python text)
  else Python._parse_python text = [whole_file_chunk text "python"].
Proof.
  unfold Python._parse_python.
  destruct (existsb python_definition (split_nl text)) eqn:Hdef.
  - pose proof (python_loop_started (split_nl text) (split_nl text) 1
                  Python.init (or_introl Hdef)) as Hstarted.
    pose proof (python_remaining_shape text) as Hshape.
    assert (Hne : Python.add_remaining (split_nl text)
                    (Python.loop (split_nl text) 1 (split_nl text) Python.init)
                  <> []).
    { unfold Python.add_remaining.
      destruct (Python.current_chunk _) as [t|].
      - now destruct (Python.chunks _).
      - destruct Hstarted as [H|H]; [exact H|contradiction]. }
    destruct (Python.add_remaining _ _) as [|c cs]; [contradiction|].
    simpl. eapply Forall_impl; [|exact Hshape]. simpl. now intros a (Ha & _).
  - apply existsb_false_Forall in Hdef.
    rewrite python_loop_idle by (assumption || reflexivity).
    reflexivity.
Qed.

(** X5: every chunk of a Python file ends on the last line of the file,
    or on the line before the next definition line, or on a line of
    code that is not a definition and is indented no deeper than the
    chunk's first line; in the last case that dedenting line is the
    last line of the chunk. *)
Theorem python_chunks_close_at_dedent (text : str) :
  Forall (python_closed_at (split_nl text)) (Python._parse_python text).
Proof.
  unfold Python._parse_python.
  pose proof (python_remaining_shape text) as Hshape.
  destruct (Python.add_remaining _ _) as [|c cs].
  - constructor; [|constructor]. left. reflexivity.
  - simpl. eapply Forall_impl; [|exact Hshape]. simpl. now intros a (_ & Ha).
Qed.

(* ================================================================== *)
(** * More on the JavaScript scanner: where chunks open and close *)

Lemma javascript_step_shape lines lang pre line rest st :
  lines = pre ++ line :: rest ->
  (Forall (fun c => javascript_opened_at lines c
                    /\ javascript_closed_at lines c)
          (JavaScript.chunks st)
   /\ forall t, JavaScript.current_chunk st = Some t ->
        exists first,
          nth_error lines (JavaScript.chunk_start st - 1) = Some first
          /\ javascript_keyword first = true
          /\ t = javascript_label first) ->
  let st' := JavaScript.step lines lang (S (length pre)) line st in
  Forall (fun c => javascript_opened_at lines c
                   /\ javascript_closed_at lines c)
         (JavaScript.chunks st')
  /\ forall t, JavaScript.current_chunk st' = Some t ->
       exists first,
         nth_error lines (JavaScript.chunk_start st' - 1) = Some first
         /\ javascript_keyword first = true
         /\ t = javascript_label first.
Proof.
  intros Hlines (Hcs & Hcur) st'. subst st'.
  assert (Hnth : nth_error lines (length pre) = Some line).
  { subst lines. rewrite nth_error_app2 by lia. now rewrite Nat.sub_diag. }
  unfold JavaScript.step.
  set (st1 := JavaScript.open_chunk lines lang (S (length pre)) line st).
  assert (H1 : Forall (fun c => javascript_opened_at lines c
                                /\ javascript_closed_at lines c)
                      (JavaScript.chunks st1)
               /\ forall t, JavaScript.current_chunk st1 = Some t ->
                    exists first,
                      nth_error lines (JavaScript.chunk_start st1 - 1)
                      = Some first
                      /\ javascript_keyword first = true
                      /\ t = javascript_label first).
  { subst st1. unfold JavaScript.open_chunk.
    change (existsb (fun keyword => contains keyword (strip line))
                    JavaScript.keywords)
      with (javascript_keyword line).
    destruct (javascript_keyword line) eqn:Hkw; [|now split].
    cbn [JavaScript.chunks JavaScript.current_chunk JavaScript.chunk_start].
    split.
    - destruct (JavaScript.current_chunk st) as [t|] eqn:Ht; [|exact Hcs].
      apply Forall_app. split; [exact Hcs|]. constructor; [|constructor].
      destruct (Hcur t eq_refl) as (first & Hf & Hfk & Hfl).
      split.
      + exists first. simpl. auto.
      + right; left. exists line. simpl. rewrite Nat.sub_0_r. auto.
    - intros t Ht. injection Ht as <-. exists line.
      simpl. rewrite Nat.sub_0_r. repeat split; auto. }
  destruct H1 as (Hcs1 & Hcur1).
  unfold JavaScript.close_chunk.
  cbn [JavaScript.track_braces JavaScript.current_chunk JavaScript.chunks
       JavaScript.chunk_start JavaScript.brace_count].
  destruct (JavaScript.current_chunk st1) as [t|] eqn:Ht.
  - destruct ((_ =? 0)%Z && contains (py "{") line) eqn:Hclose.
    + cbn [JavaScript.chunks JavaScript.current_chunk]. split; [|discriminate].
      apply Forall_app. split; [exact Hcs1|]. constructor; [|constructor].
      destruct (Hcur1 t eq_refl) as (first & Hf & Hfk & Hfl).
      apply andb_true_iff in Hclose. destruct Hclose as (_ & Hbrace).
      split.
      * exists first. simpl. auto.
      * right; right. exists line. simpl. rewrite Nat.sub_0_r. auto.
    + cbn [JavaScript.chunks JavaScript.current_chunk JavaScript.chunk_start].
      split; [exact Hcs1|]. intros t' Ht'.
      cbn [JavaScript.track_braces JavaScript.current_chunk
           JavaScript.chunk_start] in Ht' |- *.
      rewrite Ht in Ht'. injection Ht' as <-.
      exact (Hcur1 t eq_refl).
  - cbn [JavaScript.chunks JavaScript.current_chunk]. split; [exact Hcs1|].
    intros t' Ht'.
    cbn [JavaScript.track_braces JavaScript.current_chunk] in Ht'.
    rewrite Ht in Ht'. discriminate.
Qed.

Lemma javascript_loop_shape lines lang rest : forall pre st,
  lines = pre ++ rest ->
  (Forall (fun c => javascript_opened_at lines c
                    /\ javascript_closed_at lines c)
          (JavaScript.chunks st)
   /\ forall t, JavaScript.current_chunk st = Some t ->
        exists first,
          nth_error lines (JavaScript.chunk_start st - 1) = Some first
          /\ javascript_keyword first = true
          /\ t = javascript_label first) ->
  let st' := JavaScript.loop lines lang (S (length pre)) rest st in
  Forall (fun c => javascript_opened_at lines c
                   /\ javascript_closed_at lines c)
         (JavaScript.chunks st')
  /\ forall t, JavaScript.current_chunk st' = Some t ->
       exists first,
         nth_error lines (JavaScript.chunk_start st' - 1) = Some first
         /\ javascript_keyword first = true
         /\ t = javascript_label first.
Proof.
  induction rest as [|line rest IH]; intros pre st Hlines Hst; simpl.
  - exact Hst.
  - pose proof (javascript_step_shape lang pre line rest st Hlines Hst)
      as Hstep.
    specialize (IH (pre ++ [line])
                   (JavaScript.step lines lang (S (length pre)) line st)).
    rewrite length_app in IH. simpl in IH.
    rewrite Nat.add_1_r in IH. apply IH.
    + now rewrite <- app_assoc.
    + exact Hstep.
Qed.

Lemma javascript_remaining_shape (text : str) (lang : string) :
  Forall (fun c => javascript_opened_at (split_nl text) c
                   /\ javascript_closed_at (split_nl text) c)
         (JavaScript.add_remaining (split_nl text) lang
            (JavaScript.loop (split_nl text) lang 1 (split_nl text)
                             JavaScript.init)).
Proof.
  pose proof (@javascript_loop_shape (split_nl text) lang (split_nl text) []
                JavaScript.init eq_refl) as Hloop.
  simpl in Hloop.
  destruct Hloop as (Hcs & Hcur).
  { split; [constructor|discriminate]. }
  unfold JavaScript.add_remaining.
  destruct (JavaScript.current_chunk _) as [t|]; [|exact Hcs].
  apply Forall_app. split; [exact Hcs|]. constructor; [|constructor].
  destruct (Hcur t eq_refl) as (first & Hf & Hfk & Hfl).
  split.
  - exists first. simpl. auto.
  - left. reflexivity.
Qed.

Lemma javascript_step_idle lines lang i line st :
  javascript_keyword line = false ->
  JavaScript.current_chunk st = None ->
  JavaScript.current_chunk (JavaScript.step lines lang i line st) = None
  /\ JavaScript.chunks (JavaScript.step lines lang i line st)
     = JavaScript.chunks st.
Proof.
  intros Hkw Hnone.
  unfold JavaScript.step, JavaScript.close_chunk, JavaScript.open_chunk.
  change (existsb (fun keyword => contains keyword (strip line))
                  JavaScript.keywords)
    with (javascript_keyword line).
  rewrite Hkw.
  cbn [JavaScript.track_braces JavaScript.current_chunk JavaScript.chunks].
  rewrite Hnone. cbn [JavaScript.current_chunk JavaScript.chunks]. auto.
Qed.

Lemma javascript_loop_idle lines lang rest : forall i st,
  Forall (fun l => javascript_keyword l = false) rest ->
  JavaScript.current_chunk st = None ->
  JavaScript.current_chunk (JavaScript.loop lines lang i rest st) = None
  /\ JavaScript.chunks (JavaScript.loop lines lang i rest st)
     = JavaScript.chunks st.
Proof.
  induction rest as [|line rest IH]; intros i st Hrest Hnone; [now split|].
  inversion Hrest as [|? ? Hline Hrest']; subst. simpl.
  destruct (@javascript_step_idle lines lang i line st Hline Hnone)
    as (Hc & Hcs).
  destruct (IH (S i) _ Hrest' Hc) as (Hc' & Hcs').
  split; [exact Hc'|]. now rewrite Hcs'.
Qed.

Lemma javascript_step_started lines lang i line st :
  javascript_keyword line = true
  \/ JavaScript.chunks st <> [] \/ JavaScript.current_chunk st <> None ->
  JavaScript.chunks (JavaScript.step lines lang i line st) <> []
  \/ JavaScript.current_chunk (JavaScript.step lines lang i line st) <> None.
Proof.
  intros H. unfold JavaScript.step.
  set (st1 := JavaScript.open_chunk lines lang i line st).
  assert (H1 : JavaScript.chunks st1 <> []
               \/ JavaScript.current_chunk st1 <> None).
  { subst st1. unfold JavaScript.open_chunk.
    change (existsb (fun keyword => contains keyword (strip line))
                    JavaScript.keywords)
      with (javascript_keyword line).
    destruct (javascript_keyword line); [right; discriminate|].
    destruct H as [H|H]; [discriminate|exact H]. }
  unfold JavaScript.close_chunk.
  cbn [JavaScript.track_braces JavaScript.current_chunk JavaScript.chunks
       JavaScript.chunk_start JavaScript.brace_count].
  destruct (JavaScript.current_chunk st1) as [t|] eqn:Ht.
  - destruct (_ && _).
    + left. cbn [JavaScript.chunks]. now destruct (JavaScript.chunks st1).
    + right. cbn [JavaScript.track_braces JavaScript.current_chunk].
      rewrite Ht. discriminate.
  - cbn [JavaScript.track_braces JavaScript.chunks JavaScript.current_chunk].
    destruct H1 as [H1|H1]; [now left|contradiction].
Qed.

Lemma javascript_loop_started lines lang rest : forall i st,
  existsb javascript_keyword rest = true
  \/ JavaScript.chunks st <> [] \/ JavaScript.current_chunk st <> None ->
  JavaScript.chunks (JavaScript.loop lines lang i rest st) <> []
  \/ JavaScript.current_chunk (JavaScript.loop lines lang i rest st) <> None.
Proof.
  induction rest as [|line rest IH]; intros i st H; simpl in *.
  - destruct H as [H|H]; [discriminate|exact H].
  - apply IH.
    destruct (javascript_keyword line) eqn:Hkw.
    + right. apply javascript_step_started. now left.
    + destruct H as [H|H]; [now left|].
      right. apply javascript_step_started. now right.
Qed.

(** X6: when some line of a JavaScript or TypeScript file contains one
    of the keywords, every chunk starts on such a line and is labelled
    'function', 'class' or 'variable' from that line's text; when no
    line does, the result is the single whole-file chunk. *)
Theorem javascript_chunks_open_at_keywords (text : str) (lang : string) :
  if existsb javascript_keyword (split_nl text)
  then Forall (javascript_opened_at (split_nl text))
              (JavaScript._parse_javascript text lang)
  else JavaScript._parse_javascript text lang = [whole_file_chunk text lang].
Proof.
  unfold JavaScript._parse_javascript.
  destruct (existsb javascript_keyword (split_nl text)) eqn:Hkw.
  - pose proof (javascript_loop_started (split_nl text) lang (split_nl text) 1
                  JavaScript.init (or_introl Hkw)) as Hstarted.
    pose proof (javascript_remaining_shape text lang) as Hshape.
    assert (Hne : JavaScript.add_remaining (split_nl text) lang
                    (JavaScript.loop (split_nl text) lang 1 (split_nl text)
                                     JavaScript.init) <> []).
    { unfold JavaScript.add_remaining.
      destruct (JavaScript.current_chunk _) as [t|].
      - now destruct (JavaScript.chunks _).
      - destruct Hstarted as [H|H]; [exact H|contradiction]. }
    destruct (JavaScript.add_remaining _ _ _) as [|c cs]; [contradiction|].
    simpl. eapply Forall_impl; [|exact Hshape]. simpl. now intros a (Ha & _).
  - apply existsb_false_Forall in Hkw.
    destruct (@javascript_loop_idle (split_nl text) lang (split_nl text) 1
                JavaScript.init Hkw eq_refl) as (Hc & Hcs).
    unfold JavaScript.add_remaining. rewrite Hc, Hcs. reflexivity.
Qed.

(** X7: every chunk of a JavaScript or TypeScript file ends on the last
    line of the file, or on the line before a keyword line, or on a
    line that contains an opening brace. *)
Theorem javascript_chunks_close_at_brace (text : str) (lang : string) :
  Forall (javascript_closed_at (split_nl text))
         (JavaScript._parse_javascript text lang).
Proof.
  unfold JavaScript._parse_javascript.
  pose proof (javascript_remaining_shape text lang) as Hshape.
  destruct (JavaScript.add_remaining _ _ _) as [|c cs].
  - constructor; [|constructor]. left. reflexivity.
  - simpl. eapply Forall_impl; [|exact Hshape]. simpl. now intros a (_ & Ha).
Qed.

Lemma count_lstrip (c : char) (s : str) :
  isspace c = false -> count c (lstrip s) = count c s.
Proof.
  intros Hc. induction s as [|x s IH]; [reflexivity|].
  simpl. destruct (isspace x) eqn:Hx; [|reflexivity].
  rewrite IH. unfold count. simpl.
  destruct (x =? c)%N eqn:Hxc; [|reflexivity].
  apply N.eqb_eq in Hxc. congruence.
Qed.

Lemma count_rev (c : char) (s : str) : count c (List.rev s) = count c s.
Proof.
  unfold count. induction s as [|x s IH]; [reflexivity|].
  cbn [List.rev]. rewrite filter_app, length_app. cbn [filter].
  change (length (filter (fun x0 : N => (x0 =? c)%N) (List.rev s)))
    with (count c (List.rev s)).
  unfold count at 1. rewrite IH.
  destruct (x =? c)%N; simpl; lia.
Qed.

Lemma count_strip (c : char) (s : str) :
  isspace c = false -> count c (strip s) = count c s.
Proof.
  intros Hc. unfold strip, rstrip.
  now rewrite count_rev, count_lstrip, count_rev, count_lstrip.
Qed.

(** Stripping a line does not change its braces, so the scanner counts
    the braces of a keyword line twice. *)
Lemma braces_strip (line : str) :
  JavaScript.braces (strip line) = JavaScript.braces line.
Proof.
  unfold JavaScript.braces. now rewrite !count_strip.
Qed.

Lemma javascript_loop_app lines lang a : forall b i st,
  JavaScript.loop lines lang i (a ++ b) st
  = JavaScript.loop lines lang (i + length a) b
                    (JavaScript.loop lines lang i a st).
Proof.
  induction a as [|x a IH]; intros b i st; simpl.
  - now rewrite Nat.add_0_r.
  - rewrite IH. f_equal. lia.
Qed.

Lemma javascript_step_keeps lines lang i line st c :
  In c (JavaScript.chunks st) ->
  In c (JavaScript.chunks (JavaScript.step lines lang i line st)).
Proof.
  intros Hin. unfold JavaScript.step.
  assert (H1 : In c (JavaScript.chunks
                       (JavaScript.open_chunk lines lang i line st))).
  { unfold JavaScript.open_chunk. destruct (existsb _ _); [|exact Hin].
    cbn [JavaScript.chunks].
    destruct (JavaScript.current_chunk st); [|exact Hin].
    apply in_or_app. now left. }
  unfold JavaScript.close_chunk.
  cbn [JavaScript.track_braces JavaScript.current_chunk JavaScript.chunks
       JavaScript.chunk_start JavaScript.brace_count].
  destruct (JavaScript.current_chunk _); [|exact H1].
  destruct (_ && _); [|exact H1].
  cbn [JavaScript.chunks]. apply in_or_app. now left.
Qed.

Lemma javascript_loop_keeps lines lang rest c : forall i st,
  In c (JavaScript.chunks st) ->
  In c (JavaScript.chunks (JavaScript.loop lines lang i rest st)).
Proof.
  induction rest as [|line rest IH]; intros i st Hin; simpl; [exact Hin|].
  apply IH. now apply javascript_step_keeps.
Qed.

Lemma slice_single {A} (l : list A) (i : nat) (x : A) :
  nth_error l i = Some x -> slice l i (S i) = [x].
Proof.
  intros Hx. unfold slice. replace (S i - i) with 1 by lia.
  apply nth_error_split in Hx. destruct Hx as (pre & post & -> & <-).
  rewrite skipn_app, Nat.sub_diag, skipn_all. reflexivity.
Qed.

(** X8: a line of a JavaScript or TypeScript file that contains a
    keyword and an opening brace, with as many closing as opening
    braces, always becomes a chunk of its own: one line long, holding
    exactly that line, with the label of that line. *)
Theorem javascript_one_line_declaration
        (text : str) (lang : string) (i : nat) (line : str) :
  nth_error (split_nl text) i = Some line ->
  javascript_keyword line = true ->
  contains (py "{") line = true ->
  JavaScript.braces line = 0%Z ->
  In {| content := line; start_line := S i; end_line := S i;
        type := javascript_label line; language := lang |}
     (JavaScript._parse_javascript text lang).
Proof.
  intros Hnth Hkw Hbrace Hbal.
  unfold JavaScript._parse_javascript.
  set (lines := split_nl text) in *.
  pose proof Hnth as Hsplit.
  apply nth_error_split in Hsplit.
  destruct Hsplit as (pre & post & Hlines & Hlen).
  assert (Hloop : In {| content := line; start_line := S i; end_line := S i;
                        type := javascript_label line; language := lang |}
                     (JavaScript.chunks
                        (JavaScript.loop lines lang 1 lines JavaScript.init))).
  { rewrite Hlines at 2. rewrite javascript_loop_app. cbn [JavaScript.loop].
    apply javascript_loop_keeps.
    rewrite Hlen. change (1 + i) with (S i).
    unfold JavaScript.step, JavaScript.close_chunk, JavaScript.open_chunk.
    change (existsb (fun keyword => contains keyword (strip line))
                    JavaScript.keywords)
      with (javascript_keyword line).
    rewrite Hkw.
    cbn [JavaScript.track_braces JavaScript.current_chunk JavaScript.chunks
         JavaScript.chunk_start JavaScript.brace_count].
    rewrite braces_strip, Hbal, Hbrace. cbn [Z.add Z.eqb andb].
    cbn [JavaScript.chunks]. apply in_or_app. right. left.
    replace (S i - 1) with i by lia.
    rewrite (slice_single lines i Hnth). reflexivity. }
  assert (Hrem : In {| content := line; start_line := S i; end_line := S i;
                       type := javascript_label line; language := lang |}
                    (JavaScript.add_remaining lines lang
                       (JavaScript.loop lines lang 1 lines JavaScript.init))).
  { unfold JavaScript.add_remaining.
    destruct (JavaScript.current_chunk _); [|exact Hloop].
    apply in_or_app. now left. }
  destruct (JavaScript.add_remaining _ _ _) as [|c cs]; [contradiction|].
  exact Hrem.
Qed.

(* ================================================================== *)
(** * File discovery *)

Lemma str_eqb_eq (a b : str) : str_eqb a b = true <-> a = b.
Proof.
  revert b. induction a as [|x a IH]; intros [|y b]; simpl;
    try (split; [discriminate|discriminate]); [tauto|].
  rewrite andb_true_iff, N.eqb_eq, IH. split.
  - now intros (-> & ->).
  - intros Heq. now injection Heq.
Qed.

Lemma startswith_app (p s t : str) :
  startswith p s = true -> startswith p (s ++ t) = true.
Proof.
  revert s. induction p as [|a p IH]; intros s H; [reflexivity|].
  destruct s as [|b s]; [discriminate|]. simpl in *.
  apply andb_true_iff in H. destruct H as (Hab & H).
  rewrite Hab. now apply IH.
Qed.

Lemma contains_app (p s t : str) :
  contains p s = true -> contains p (s ++ t) = true.
Proof.
  induction s as [|b s IH]; intros H.
  - simpl in H. rewrite orb_false_r in H.
    destruct p; [|discriminate]. now destruct t.
  - cbn [contains app] in *. apply orb_true_iff in H.
    apply orb_true_iff. destruct H as [H|H].
    + left. now apply (startswith_app p (b :: s) t).
    + right. now apply IH.
Qed.

(** X10: the ignore patterns are matched against the whole path string,
    so when the path of the root itself contains one of them (and the
    listing returns paths that extend the root's), no file is found. *)
Theorem find_code_files_ignored_root
        (fs : filesystem) (root : Path) (pattern : str) :
  In pattern CodeParser.IGNORE_PATTERNS ->
  contains pattern (path_str root) = true ->
  (forall item, In item (rglob fs root) ->
     exists rest, path_str item = path_str root ++ rest) ->
  CodeParser.find_code_files fs root = [].
Proof.
  intros Hin Hroot Hext. unfold CodeParser.find_code_files.
  destruct (negb _ || negb _); [reflexivity|].
  induction (rglob fs root) as [|item items IH]; [reflexivity|].
  cbn [filter].
  assert (Hitem : existsb (fun p => contains p (path_str item))
                          CodeParser.IGNORE_PATTERNS = true).
  { apply existsb_exists. exists pattern. split; [exact Hin|].
    destruct (Hext item (or_introl eq_refl)) as (rest & ->).
    now apply contains_app. }
  rewrite Hitem. cbn [negb andb]. apply IH.
  intros it Hit. apply Hext. now right.
Qed.

(** X11: among the files [find_code_files] yields, the language is
    'unknown' exactly for the extensions [.ini], [.cfg] and [.conf]:
    every other accepted extension has an entry in the language
    table. *)
Theorem unknown_language_iff_config_file
        (fs : filesystem) (root item : Path) :
  In item (CodeParser.find_code_files fs root) ->
  (CodeParser._detect_language item = "unknown"%string
   <-> In (suffix item) (map py [".ini"; ".cfg"; ".conf"]%string)).
Proof.
  intros Hin. unfold CodeParser.find_code_files in Hin.
  destruct (negb _ || negb _); [contradiction|].
  apply filter_In in Hin. destruct Hin as (_ & Hin).
  apply andb_true_iff in Hin. destruct Hin as (_ & Hin).
  apply andb_true_iff in Hin. destruct Hin as (_ & Hin).
  apply existsb_exists in Hin. destruct Hin as (e & He & Heq).
  apply str_eqb_eq in Heq. unfold CodeParser._detect_language.
  rewrite Heq. clear Heq item.
  unfold CodeParser.CODE_EXTENSIONS in He. cbn [map In] in He.
  repeat (destruct He as [<-|He];
          [vm_compute; split;
           [intros H; (discriminate H || tauto)
           |intros H; (reflexivity
                       || (repeat (destruct H as [H|H];
                                   [discriminate H|]); contradiction))]|]).
  contradiction.
Qed.

(* ================================================================== *)
(** * More on the embedder *)

(** The three outcomes of [generate_embedding], read off the answer of
    the service. *)
Lemma generate_embedding_eq {W} `{Logged W} (host : str) (http : http_client)
      (text : str) (w : W) :
  EmbeddingGenerator.generate_embedding host http text w
  = match post http (host ++ py "/api/embeddings")
               {| model := "nomic-embed-text";
                  prompt := firstn (N.to_nat 8192) text |} with
    | inl e =>
        (inr EmbeddingGenerator.zero_vector,
         add_log {| lvl := Error; event := "Failed to generate embedding";
                    fields := [("error", str_of_exn e)]%string |} w)
    | inr result =>
        match dict_get result "embedding" (JArr []) with
        | inr v => (inr v, w)
        | inl e =>
            (inr EmbeddingGenerator.zero_vector,
             add_log {| lvl := Error; event := "Failed to generate embedding";
                        fields := [("error", str_of_exn e)]%string |} w)
        end
    end.
Proof.
  unfold EmbeddingGenerator.generate_embedding, try_except, bind, lift.
  change {| model := EmbeddingGenerator.embedding_model;
            prompt := firstn (N.to_nat 8192) text |}
    with {| model := "nomic-embed-text";
            prompt := firstn (N.to_nat 8192) text |}.
  destruct (post http _ _) as [e|result]; [reflexivity|].
  cbv beta iota delta [ret raise].
  destruct (dict_get result "embedding" (JArr [])); reflexivity.
Qed.

Lemma generate_embedding_returns {W} `{Logged W} (host : str)
      (http : http_client) (text : str) (w : W) :
  exists v w', EmbeddingGenerator.generate_embedding host http text w
               = (inr v, w').
Proof.
  rewrite generate_embedding_eq.
  destruct (post http _ _) as [e|result]; [eexists _, _; reflexivity|].
  destruct (dict_get result _ _); eexists _, _; reflexivity.
Qed.

Lemma generate_embedding_value {W V} `{Logged W} `{Logged V} (host : str)
      (http : http_client) (text : str) (w : W) (v : V) :
  fst (EmbeddingGenerator.generate_embedding host http text w)
  = fst (EmbeddingGenerator.generate_embedding host http text v).
Proof.
  rewrite !generate_embedding_eq.
  destruct (post http _ _) as [e|result]; [reflexivity|].
  destruct (dict_get result _ _); reflexivity.
Qed.

(** X12: [generate_embedding] never raises.  When the service answers
    with a dictionary that has no ["embedding"] entry it returns the
    empty list and logs nothing; when the answer is not a dictionary it
    falls back to the vector of zeros and logs an error. *)
Theorem generate_embedding_never_raises
        {W} `{Logged W} (host : str) (http : http_client) (text : str)
        (w : W) :
  let url := host ++ py "/api/embeddings" in
  let payload := {| model := "nomic-embed-text";
                    prompt := firstn (N.to_nat 8192) text |} in
  (exists v w', EmbeddingGenerator.generate_embedding host http text w
                = (inr v, w'))
  /\ (forall members,
        post http url payload = inr (JObj members) ->
        find (fun kv => (fst kv =? "embedding")%string) members = None ->
        EmbeddingGenerator.generate_embedding host http text w
        = (inr (JArr []), w))
  /\ (forall result,
        post http url payload = inr result ->
        (forall members, result <> JObj members) ->
        exists entry,
          EmbeddingGenerator.generate_embedding host http text w
          = (inr (JArr (repeat (JNum 0%Q) 768)), add_log entry w)
          /\ lvl entry = Error).
Proof.
  intros url payload. split; [apply generate_embedding_returns|]. split.
  - intros members Hp Hfind. rewrite generate_embedding_eq.
    fold url. fold payload. rewrite Hp. unfold dict_get. now rewrite Hfind.
  - intros result Hp Hnot. rewrite generate_embedding_eq.
    fold url. fold payload. rewrite Hp.
    destruct result as [| | | | |members];
      try (eexists; split; reflexivity).
    now destruct (Hnot members).
Qed.

(** X13: only the first 8192 characters of a text reach the embedding
    service: two texts that agree on them are embedded alike, at
    indexing time and at query time. *)
Theorem embedding_ignores_text_past_limit
        {W} `{Logged W} (host : str) (http : http_client) (t1 t2 : str)
        (w : W) :
  firstn (N.to_nat 8192) t1 = firstn (N.to_nat 8192) t2 ->
  EmbeddingGenerator.generate_embedding host http t1 w
  = EmbeddingGenerator.generate_embedding host http t2 w
  /\ RagChat.generate_query_embedding http host t1 w
     = RagChat.generate_query_embedding http host t2 w.
Proof.
  intros Heq. split.
  - rewrite !generate_embedding_eq. now rewrite Heq.
  - unfold RagChat.generate_query_embedding. now rewrite Heq.
Qed.

(** X14: [generate_embeddings_batch] never raises and returns one
    embedding per text, in the order of the texts, each the very value
    a single call of [generate_embedding] returns for that text. *)
Theorem generate_embeddings_batch_pointwise
        {W} `{Logged W} (host : str) (http : http_client) (texts : list str)
        (w : W) :
  exists es w',
    EmbeddingGenerator.generate_embeddings_batch host http texts w
    = (inr es, w')
    /\ length es = length texts
    /\ Forall2 (fun t e =>
                  forall w0 : W,
                    fst (EmbeddingGenerator.generate_embedding host http t w0)
                    = inr e)
               texts es.
Proof.
  unfold EmbeddingGenerator.generate_embeddings_batch.
  match goal with
  | |- exists es w', ?F texts [] w = _ /\ _ => set (go := F)
  end.
  assert (Hgo : forall ts acc w1,
             exists es w',
               go ts acc w1 = (inr (acc ++ es), w')
               /\ length es = length ts
               /\ Forall2 (fun t e =>
                             forall w0 : W,
                               fst (EmbeddingGenerator.generate_embedding
                                      host http t w0) = inr e)
                          ts es).
  { induction ts as [|t ts IH]; intros acc w1.
    - exists [], w1. rewrite app_nil_r. repeat split. constructor.
    - destruct (generate_embedding_returns host http t w1) as (e & w2 & He).
      destruct (IH (acc ++ [e]) w2) as (es & w' & Hes & Hlen & Hall).
      exists (e :: es), w'. split; [|split].
      + cbn [go]. unfold bind at 1. rewrite He.
        fold go. rewrite Hes. now rewrite <- app_assoc.
      + simpl. now rewrite Hlen.
      + constructor; [|exact Hall]. intros w0.
        rewrite (generate_embedding_value host http t w0 w1), He.
        reflexivity. }
  destruct (Hgo texts [] w) as (es & w' & Hes & Hlen & Hall).
  exists es, w'. auto.
Qed.

(* ================================================================== *)
(** * More on point identifiers *)

(** Reading [n] hex digits of [d], from digit [m + n - 1] down to digit
    [m], gives the number those digits spell. *)
Lemma int16_digits_hex (d : N) (m : nat) : forall n acc,
  Hex.int16_digits acc
    (map (fun k => Hex.hex_digit
                     ((d / 16 ^ N.of_nat (m + n - 1 - k)) mod 16)%N)
         (seq 0 n))
  = Some (acc * 16 ^ N.of_nat n + (d / 16 ^ N.of_nat m) mod 16 ^ N.of_nat n)%N.
Proof.
  induction n as [|n IH]; intros acc.
  - simpl. rewrite N.mod_1_r. f_equal. lia.
  - cbn [seq map Hex.int16_digits].
    rewrite digit_value_hex_digit by (apply N.mod_lt; discriminate).
    rewrite <- seq_shift, map_map.
    erewrite map_ext_in.
    2:{ intros k Hk. apply in_seq in Hk.
        replace (m + S n - 1 - S k) with (m + n - 1 - k) by lia.
        reflexivity. }
    rewrite IH. f_equal.
    replace (m + S n - 1 - 0) with (m + n) by lia.
    rewrite Nat2N.inj_succ, N.pow_succ_r', Nat2N.inj_add, N.pow_add_r.
    set (z := (d / 16 ^ N.of_nat m)%N).
    set (p := (16 ^ N.of_nat n)%N).
    rewrite <- N.Div0.div_div. fold z.
    rewrite (N.mul_comm 16 p), N.Div0.mod_mul_r.
    lia.
Qed.

Lemma int16_hexdigest_value (digest : N) :
  Hex.int16 (firstn 8 (Hex.hexdigest digest))
  = inr ((digest / 2 ^ 96) mod 2 ^ 32)%N.
Proof.
  change (firstn 8 (Hex.hexdigest digest))
    with (map (fun k => Hex.hex_digit
                          ((digest / 16 ^ N.of_nat (24 + 8 - 1 - k)) mod 16)%N)
              (seq 0 8)).
  unfold Hex.int16.
  pose proof (int16_digits_hex digest 24 8 0) as Hd.
  cbn [seq map] in Hd |- *. rewrite Hd. reflexivity.
Qed.

(** X15: the point id fails to compute only in [.encode()]: when the
    path string holds a surrogate (the name of a file whose bytes are
    not UTF-8) the computation raises a [UnicodeEncodeError]; otherwise
    [int(..., 16)] cannot fail on the hex digest, and the id is the
    number spelled by the first eight hex digits of the MD5 digest of
    the UTF-8 bytes of ["<path>:<start_line>:<end_line>"], i.e. the top 32
    of its 128 bits, and therefore below 2^32. *)
Theorem point_id_is_digest_prefix
        (h : hashlib) (file_path : Path) (c : chunk) :
  let key := path_str file_path ++ py ":" ++ str_of_nat (start_line c)
             ++ py ":" ++ str_of_nat (end_line c) in
  Indexer.point_id h file_path c
  = (if forallb is_scalar (path_str file_path)
     then inr ((md5 h (flat_map utf8_char key) / 2 ^ 96) mod 2 ^ 32)%N
     else inl (Exception (py "UnicodeEncodeError")))
  /\ ((md5 h (flat_map utf8_char key) / 2 ^ 96) mod 2 ^ 32 < 2 ^ 32)%N.
Proof.
  intros key. split.
  - unfold Indexer.point_id. fold key. rewrite encode_eq.
    unfold key at 1. rewrite key_scalar.
    destruct (forallb is_scalar (path_str file_path)); [|reflexivity].
    apply int16_hexdigest_value.
  - apply N.mod_lt. discriminate.
Qed.

(* ================================================================== *)
(** * The indexing pass with healthy services *)

Lemma indexed_after_nil (w w' : Indexer.world) :
  Indexer.points w' = Indexer.points w ->
  Indexer.upserted w' = Indexer.upserted w ->
  length (Indexer.points w) < Indexer.batch_size ->
  indexed_after w w' [].
Proof.
  intros Hp Hu Hlen. split; [now rewrite Hp|].
  exists []. rewrite !app_nil_r, Hp. simpl. auto.
Qed.

Lemma indexed_after_trans (w w1 w2 : Indexer.world) (cs1 cs2 : list chunk) :
  indexed_after w w1 cs1 -> indexed_after w1 w2 cs2 ->
  indexed_after w w2 (cs1 ++ cs2).
Proof.
  intros (_ & s1 & Hu1 & Hf1 & Hm1) (Hlen & s2 & Hu2 & Hf2 & Hm2).
  split; [exact Hlen|]. exists (s1 ++ s2).
  split; [now rewrite Hu2, Hu1, app_assoc|].
  split; [apply Forall_app; now split|].
  rewrite concat_app, <- app_assoc, map_app, Hm2, app_assoc, <- map_app, Hm1.
  now rewrite app_assoc.
Qed.

Lemma indexed_after_same (w w1 w2 : Indexer.world) (cs : list chunk) :
  Indexer.points w1 = Indexer.points w ->
  Indexer.upserted w1 = Indexer.upserted w ->
  indexed_after w1 w2 cs -> indexed_after w w2 cs.
Proof.
  intros Hp Hu (Hlen & s & Hus & Hf & Hm). split; [exact Hlen|].
  exists s. now rewrite <- Hp, <- Hu.
Qed.

Lemma generate_embedding_world (host : str) (http : http_client) (text : str)
      (w : Indexer.world) :
  exists v w1,
    EmbeddingGenerator.generate_embedding host http text w = (inr v, w1)
    /\ Indexer.points w1 = Indexer.points w
    /\ Indexer.upserted w1 = Indexer.upserted w.
Proof.
  rewrite generate_embedding_eq.
  destruct (post http _ _) as [e|result]; [eexists _, _; repeat split|].
  destruct (dict_get result _ _); eexists _, _; repeat split.
Qed.

Lemma parse_file_chunks_of (fs : filesystem) (file_path : Path)
      (w : Indexer.world) :
  exists w1,
    CodeParser.parse_file fs file_path w = (inr (chunks_of fs file_path), w1)
    /\ Indexer.points w1 = Indexer.points w
    /\ Indexer.upserted w1 = Indexer.upserted w.
Proof.
  unfold CodeParser.parse_file, chunks_of, try_except, bind, lift.
  destruct (read_text fs file_path) as [e|text];
    eexists; repeat split.
Qed.

Section HealthyPass.

Variable fs : filesystem.
Variable http : http_client.
Variable qd : qdrant.
Variable h : hashlib.
Variable host : str.
Variable root : Path.

(** The vector store accepts every batch, every path can be made
    relative, and whatever [generate_embedding] returns is a vector the
    constructor of [PointStruct] accepts. *)
Hypothesis upsert_ok : forall name batch, upsert qd name batch = inr tt.
Hypothesis relative_ok : forall p q, exists r, relative_to fs p q = inr r.
Hypothesis vectors_ok :
  forall text (w w1 : Indexer.world) v,
    EmbeddingGenerator.generate_embedding host http text w = (inr v, w1) ->
    valid_vector qd v = true.

Lemma make_point_ok workspace project_path file_path c (w : Indexer.world) :
  forallb is_scalar (path_str file_path) = true ->
  exists p w1,
    Indexer.make_point fs http h host root workspace project_path file_path
                       c w = (inr p, w1)
    /\ new_PointStruct qd p = inr p
    /\ chunk_of_point p = c
    /\ Indexer.points w1 = Indexer.points w
    /\ Indexer.upserted w1 = Indexer.upserted w.
Proof.
  intros Hpath. unfold Indexer.make_point, bind.
  destruct (generate_embedding_world host http (content c) w)
    as (v & w1 & Hgen & Hp & Hu).
  pose proof (vectors_ok _ _ Hgen) as Hvalid. rewrite Hgen.
  destruct (@point_id_total h file_path c Hpath) as (n & -> & _).
  destruct (relative_ok file_path workspace) as (rel & ->).
  cbn [lift ret].
  assert (Hnew : forall payload,
             new_PointStruct qd {| id := n; vector := v; payload := payload |}
             = inr {| id := n; vector := v; payload := payload |}).
  { intros payload. unfold new_PointStruct. cbn [vector]. now rewrite Hvalid. }
  destruct (Indexer.truthy project_path).
  - destruct (relative_ok workspace root) as (r & ->). cbn [lift ret].
    eexists _, _. split; [reflexivity|]. split; [apply Hnew|].
    split; [now destruct c|]. auto.
  - cbn [ret].
    eexists _, _. split; [reflexivity|]. split; [apply Hnew|].
    split; [now destruct c|]. auto.
Qed.

Lemma index_chunk_ok workspace project_path i nfiles file_path c
      (w : Indexer.world) :
  forallb is_scalar (path_str file_path) = true ->
  length (Indexer.points w) < Indexer.batch_size ->
  exists w',
    Indexer.index_chunk fs http qd h host root workspace project_path
                        i nfiles file_path c w = (inr tt, w')
    /\ indexed_after w w' [c].
Proof.
  intros Hpath Hlen. unfold Indexer.index_chunk.
  destruct (@make_point_ok workspace project_path file_path c w Hpath)
    as (p & w1 & Hmk & Hnew & Hc & Hp & Hu).
  unfold bind at 1. rewrite Hmk.
  unfold bind at 1. rewrite Hnew. cbn [lift ret].
  unfold bind, modify, Py.get, logger, lift.
  cbn [Indexer.points Indexer.upserted Indexer.log].
  rewrite Hp, length_app. cbn [length].
  destruct (Indexer.batch_size <=? length (Indexer.points w) + 1) eqn:Hfull.
  - rewrite upsert_ok. cbn [ret]. eexists. split; [reflexivity|].
    apply Nat.leb_le in Hfull. split.
    + cbn. unfold Indexer.batch_size. lia.
    + exists [Indexer.points w ++ [p]]. cbn. rewrite ?Hu, ?Hp.
      split; [reflexivity|]. split.
      * constructor; [|constructor]. rewrite length_app. simpl.
        unfold Indexer.batch_size in *. lia.
      * rewrite !app_nil_r, map_app. simpl. now rewrite Hc.
  - cbn [ret]. eexists. split; [reflexivity|].
    apply Nat.leb_gt in Hfull. split.
    + cbn. rewrite ?Hp, length_app. simpl. lia.
    + exists []. cbn. rewrite ?Hu, ?Hp, app_nil_r, map_app. simpl.
      now rewrite Hc.
Qed.

Lemma index_chunks_ok workspace project_path i nfiles file_path cs :
  forallb is_scalar (path_str file_path) = true ->
  forall w : Indexer.world,
    length (Indexer.points w) < Indexer.batch_size ->
    exists w',
      for_each cs (Indexer.index_chunk fs http qd h host root workspace
                                       project_path i nfiles file_path) w
      = (inr tt, w')
      /\ indexed_after w w' cs.
Proof.
  intros Hpath. induction cs as [|c cs IH]; intros w Hlen.
  - exists w. split; [reflexivity|]. now apply indexed_after_nil.
  - destruct (@index_chunk_ok workspace project_path i nfiles file_path c w
              Hpath Hlen)
      as (w1 & Hc & Hafter1).
    destruct (IH w1 (proj1 Hafter1)) as (w' & Hcs & Hafter2).
    exists w'. split.
    + cbn [for_each]. unfold bind at 1. now rewrite Hc.
    + exact (indexed_after_trans Hafter1 Hafter2).
Qed.

Lemma index_file_ok workspace project_path nfiles i file_path
      (w : Indexer.world) :
  forallb is_scalar (path_str file_path) = true ->
  length (Indexer.points w) < Indexer.batch_size ->
  exists w',
    Indexer.index_file fs http qd h host root workspace project_path
                       nfiles i file_path w = (inr tt, w')
    /\ indexed_after w w' (chunks_of fs file_path).
Proof.
  intros Hpath Hlen. unfold Indexer.index_file, try_except.
  destruct (parse_file_chunks_of fs file_path w) as (w1 & Hparse & Hp & Hu).
  unfold bind at 1. rewrite Hparse.
  assert (Hlen1 : length (Indexer.points w1) < Indexer.batch_size)
    by now rewrite Hp.
  destruct (@index_chunks_ok workspace project_path i nfiles file_path
              (chunks_of fs file_path) Hpath w1 Hlen1) as (w' & Hcs & Hafter).
  rewrite Hcs. exists w'. split; [reflexivity|].
  eapply indexed_after_same; eassumption.
Qed.

Lemma index_files_ok workspace project_path nfiles files :
  Forall (fun f => forallb is_scalar (path_str f) = true) files ->
  forall i (w : Indexer.world),
    length (Indexer.points w) < Indexer.batch_size ->
    exists w',
      Indexer.index_files fs http qd h host root workspace project_path
                          nfiles i files w = (inr tt, w')
      /\ indexed_after w w' (concat (map (chunks_of fs) files)).
Proof.
  induction 1 as [|f files Hf Hfiles IH]; intros i w Hlen.
  - exists w. split; [reflexivity|]. now apply indexed_after_nil.
  - destruct (@index_file_ok workspace project_path nfiles i f w Hf Hlen)
      as (w1 & Hfile & Hafter1).
    destruct (IH (S i) w1 (proj1 Hafter1)) as (w' & Hfs & Hafter2).
    exists w'. split.
    + cbn [Indexer.index_files]. unfold bind at 1. now rewrite Hfile.
    + cbn [map concat]. exact (indexed_after_trans Hafter1 Hafter2).
Qed.


End HealthyPass.

(* ================================================================== *)
(** * More on retrieval: the chat endpoint *)

(** X18: whatever goes wrong inside [chat] (the query embedding, the
    vector search or the text generation), the endpoint raises an
    [HTTPException] with status 500 and nothing else; in particular a
    failure of the generation service alone, after a successful search,
    is reported as 500 with the failure's message. *)
Theorem chat_raises_only_500
        {W} `{Logged W} (http : http_client) (llm : llm_client) (qd : qdrant)
        (host : str) (format : json -> str) (request : Chat.ChatRequest)
        (w : W) :
  (forall e w',
     Chat.chat http llm qd host format request w = (inl e, w') ->
     exists detail, e = HTTPException 500 detail)
  /\ (forall v hits msg w1,
        RagChat.generate_query_embedding
          http host (Chat.message request)
          (add_log {| lvl := Info; event := "Chat request";
                      fields :=
                        [("message", firstn 100 (Chat.message request));
                         ("project",
                          match Chat.project_path request with
                          | Some p => p
                          | None => py "None"
                          end)]%string |} w)
        = (inr v, w1) ->
        search qd COLLECTION_NAME v (Chat.max_results request)
               (if Indexer.truthy (Chat.project_path request)
                then Chat.project_path request else None) = inr hits ->
        post_generate llm (host ++ py "/api/generate")
          {| GenerateRequest.model :=
               Chat.model_or_default (Chat.model request);
             GenerateRequest.prompt :=
               Chat.user_prompt
                 (Chat.context_text format (map (Chat.to_context format) hits))
                 (Chat.message request);
             GenerateRequest.system := Chat.system_prompt;
             GenerateRequest.stream := false;
             GenerateRequest.options :=
               {| GenerateRequest.temperature := Chat.temperature request;
                  GenerateRequest.num_predict := 4096 |} |}
        = inl (Exception msg) ->
        exists w',
          Chat.chat http llm qd host format request w
          = (inl (HTTPException 500 msg), w')).
Proof.
  split.
  - intros e w'. unfold Chat.chat, try_except.
    match goal with
    | |- (match ?body w with _ => _ end) = _ -> _ =>
        destruct (body w) as [[e0|resp] w0]
    end.
    + unfold bind, logger, modify, raise. intros Heq.
      injection Heq as <- _. eexists. reflexivity.
    + discriminate.
  - intros v hits msg w1 Hemb Hsearch Hgen.
    unfold Chat.chat, try_except, bind, logger, modify. cbv beta iota.
    rewrite Hemb. cbv beta iota. rewrite Hsearch.
    cbv beta iota delta [lift ret].
    unfold Chat.call_ollama, try_except, bind, lift. rewrite Hgen.
    unfold logger, modify, bind, raise. eexists. reflexivity.
Qed.

(** X19: every normal answer of [chat] lists exactly one source per hit
    of the vector search, in the order of the hits, and [context_used]
    is false exactly when the search returned no hit; the generation
    service is consulted even then, with an empty context. *)
Theorem chat_sources_follow_hits
        {W} `{Logged W} (http : http_client) (llm : llm_client) (qd : qdrant)
        (host : str) (format : json -> str) (request : Chat.ChatRequest)
        (w : W) (resp : Chat.ChatResponse) (w' : W) :
  Chat.chat http llm qd host format request w = (inr resp, w') ->
  exists v hits w1,
    search qd COLLECTION_NAME v (Chat.max_results request)
           (if Indexer.truthy (Chat.project_path request)
            then Chat.project_path request else None) = inr hits
    /\ Chat.sources resp = map Chat.to_source hits
    /\ (Chat.context_used resp = false <-> hits = [])
    /\ Chat.call_ollama llm host
         (Chat.user_prompt
            (Chat.context_text format (map (Chat.to_context format) hits))
            (Chat.message request))
         Chat.system_prompt
         (Chat.model_or_default (Chat.model request))
         (Chat.temperature request) w1
       = (inr (Chat.response resp), w').
Proof.
  unfold Chat.chat, try_except, bind, logger, modify. cbv beta iota.
  destruct (RagChat.generate_query_embedding http host _ _)
    as [[e|v] w1].
  { unfold raise. discriminate. }
  destruct (search qd COLLECTION_NAME v _ _) as [e|hits] eqn:Hsearch;
    cbv beta iota delta [lift raise ret].
  { discriminate. }
  destruct (Chat.call_ollama llm host _ _ _ _ w1) as [[e|text] w2] eqn:Hgen.
  { discriminate. }
  intros Heq. injection Heq as <- <-.
  exists v, hits, w1. cbn [Chat.sources Chat.context_used Chat.response].
  split; [exact Hsearch|]. split; [reflexivity|]. split; [|exact Hgen].
  rewrite length_map. destruct hits; simpl; split; congruence.
Qed.

(* ================================================================== *)
(** * The agents' view of retrieval *)

(** X20: [get_codebase_context] never raises: when the call to the
    retrieval service fails in any way it logs a warning and returns
    the empty list, the same value it returns when the service answers
    without a ["results"] entry or with an empty one, so an agent
    cannot tell a failed search from one with no match. *)
Theorem get_codebase_context_swallows_failures
        {W} `{Logged W} (client : BaseAgent.search_client) (query : str)
        (project_path : option str) (max_results : Z) (w : W) :
  let params := {| BaseAgent.query := query;
                   BaseAgent.project_path := project_path;
                   BaseAgent.limit := max_results |} in
  let url := py "http://rag-chat:8003" ++ py "/search" in
  (exists v w',
     BaseAgent.get_codebase_context client query project_path max_results w
     = (inr v, w'))
  /\ (forall e,
        BaseAgent.post_search client url params = inl e ->
        BaseAgent.get_codebase_context client query project_path max_results w
        = (inr (JArr []),
           add_log {| lvl := Warning;
                      event := "Failed to get codebase context";
                      fields := [("error", str_of_exn e)]%string |} w))
  /\ (forall members,
        BaseAgent.post_search client url params = inr (JObj members) ->
        find (fun kv => (fst kv =? "results")%string) members = None
        \/ find (fun kv => (fst kv =? "results")%string) members
           = Some ("results"%string, JArr []) ->
        BaseAgent.get_codebase_context client query project_path max_results w
        = (inr (JArr []), w)).
Proof.
  intros params url.
  unfold BaseAgent.get_codebase_context, try_except, bind, lift.
  fold params. fold url.
  split; [|split].
  - destruct (BaseAgent.post_search client url params) as [e|r].
    + eexists _, _. reflexivity.
    + cbv beta iota delta [ret raise].
      destruct (dict_get r "results" (JArr [])); eexists _, _; reflexivity.
  - intros e He. rewrite He. reflexivity.
  - intros members Hp Hfind. rewrite Hp.
    cbv beta iota delta [ret raise dict_get].
    destruct Hfind as [-> | ->]; reflexivity.
Qed.

(* ================================================================== *)
(** * The further theorems at sample inputs *)

(** X8 at the file that consists of the line [class A { }]. *)
Lemma javascript_one_line_declaration_witness :
  nth_error (split_nl MoreSamples.one_line_class) 0
  = Some MoreSamples.one_line_class
  /\ In {| content := MoreSamples.one_line_class;
           start_line := 1; end_line := 1;
           type := javascript_label MoreSamples.one_line_class;
           language := "javascript" |}
        (JavaScript._parse_javascript MoreSamples.one_line_class "javascript").
Proof.
  split; [reflexivity|].
  apply (@javascript_one_line_declaration MoreSamples.one_line_class
           "javascript" 0 MoreSamples.one_line_class);
    vm_compute; reflexivity.
Defined.

(** X10 at a workspace below [/srv/build]. *)
Lemma find_code_files_ignored_root_witness :
  contains (py "build") (path_str MoreSamples.build_root) = true
  /\ CodeParser.find_code_files MoreSamples.build_fs MoreSamples.build_root
     = [].
Proof.
  split; [reflexivity|].
  apply (@find_code_files_ignored_root MoreSamples.build_fs
           MoreSamples.build_root (py "build")).
  - vm_compute. tauto.
  - reflexivity.
  - intros item [<-|[]]. exists (py "/main.py"). reflexivity.
Defined.

(** X11 at a workspace that holds [settings.ini]. *)
Lemma unknown_language_iff_config_file_witness :
  In MoreSamples.settings_ini
     (CodeParser.find_code_files MoreSamples.config_fs Samples.root)
  /\ (CodeParser._detect_language MoreSamples.settings_ini = "unknown"%string
      <-> In (suffix MoreSamples.settings_ini)
             (map py [".ini"; ".cfg"; ".conf"]%string)).
Proof.
  assert (Hin : In MoreSamples.settings_ini
                   (CodeParser.find_code_files MoreSamples.config_fs
                                               Samples.root)).
  { vm_compute. left. reflexivity. }
  split; [exact Hin|].
  exact (unknown_language_iff_config_file MoreSamples.config_fs Samples.root
           MoreSamples.settings_ini Hin).
Defined.

(** X12 at a service that answers with an empty dictionary. *)
Lemma generate_embedding_never_raises_witness :
  EmbeddingGenerator.generate_embedding
    Samples.host MoreSamples.service_without_embedding (py "def f(): pass")
    (@nil log_entry)
  = (inr (JArr []), @nil log_entry).
Proof.
  exact (proj1 (proj2
           (generate_embedding_never_raises Samples.host
              MoreSamples.service_without_embedding (py "def f(): pass")
              (@nil log_entry)))
           [] eq_refl eq_refl).
Defined.

(** X13 at two texts that differ in character 8193 only. *)
Lemma embedding_ignores_text_past_limit_witness :
  MoreSamples.long_text "x" <> MoreSamples.long_text "y"
  /\ EmbeddingGenerator.generate_embedding
       Samples.host (Samples.service_up Samples.vector)
       (MoreSamples.long_text "x") (@nil log_entry)
     = EmbeddingGenerator.generate_embedding
         Samples.host (Samples.service_up Samples.vector)
         (MoreSamples.long_text "y") (@nil log_entry).
Proof.
  split.
  - intros Heq. apply (f_equal (fun s => nth (N.to_nat 8192) s 0%N)) in Heq.
    vm_compute in Heq. discriminate Heq.
  - apply (proj1 (@embedding_ignores_text_past_limit _ _ Samples.host
                    (Samples.service_up Samples.vector)
                    (MoreSamples.long_text "x") (MoreSamples.long_text "y")
                    (@nil log_entry) ltac:(vm_compute; reflexivity))).
Defined.


(** X18 at a generation service that cannot be reached. *)
Lemma chat_raises_only_500_witness :
  exists w',
    Chat.chat (Samples.service_up Samples.vector) MoreSamples.llm_down
              (Samples.store_up [MoreSamples.hit]) Samples.host
              MoreSamples.format MoreSamples.chat_request (@nil log_entry)
    = (inl (HTTPException 500 (py "Connection refused")), w').
Proof.
  exact (proj2
           (chat_raises_only_500 (Samples.service_up Samples.vector)
              MoreSamples.llm_down (Samples.store_up [MoreSamples.hit])
              Samples.host MoreSamples.format MoreSamples.chat_request
              (@nil log_entry))
           Samples.vector [MoreSamples.hit] (py "Connection refused")
           _ eq_refl eq_refl eq_refl).
Defined.

(** X19 at a search with one hit and a generation service that answers. *)
Lemma chat_sources_follow_hits_witness :
  exists resp w',
    Chat.chat (Samples.service_up Samples.vector)
              (MoreSamples.llm_up (py "In a.py."))
              (Samples.store_up [MoreSamples.hit]) Samples.host
              MoreSamples.format MoreSamples.chat_request (@nil log_entry)
    = (inr resp, w')
    /\ exists v hits w1,
         search (Samples.store_up [MoreSamples.hit]) COLLECTION_NAME v
                (Chat.max_results MoreSamples.chat_request)
                (if Indexer.truthy (Chat.project_path MoreSamples.chat_request)
                 then Chat.project_path MoreSamples.chat_request else None)
         = inr hits
         /\ Chat.sources resp = map Chat.to_source hits
         /\ (Chat.context_used resp = false <-> hits = [])
         /\ Chat.call_ollama (MoreSamples.llm_up (py "In a.py.")) Samples.host
              (Chat.user_prompt
                 (Chat.context_text MoreSamples.format
                    (map (Chat.to_context MoreSamples.format) hits))
                 (Chat.message MoreSamples.chat_request))
              Chat.system_prompt
              (Chat.model_or_default (Chat.model MoreSamples.chat_request))
              (Chat.temperature MoreSamples.chat_request) w1
            = (inr (Chat.response resp), w').
Proof.
  eexists _, _. split; [vm_compute; reflexivity|].
  apply (@chat_sources_follow_hits _ _
           (Samples.service_up Samples.vector)
           (MoreSamples.llm_up (py "In a.py."))
           (Samples.store_up [MoreSamples.hit]) Samples.host
           MoreSamples.format MoreSamples.chat_request (@nil log_entry)).
  vm_compute. reflexivity.
Defined.

(** X20 at a retrieval service that cannot be reached. *)
Lemma get_codebase_context_swallows_failures_witness :
  BaseAgent.get_codebase_context MoreSamples.search_down
    (py "where is the parser") None 5 (@nil log_entry)
  = (inr (JArr []),
     add_log {| lvl := Warning; event := "Failed to get codebase context";
                fields := [("error", py "Connection refused")]%string |}
             (@nil log_entry)).
Proof.
  exact (proj1 (proj2
           (get_codebase_context_swallows_failures MoreSamples.search_down
              (py "where is the parser") None 5 (@nil log_entry)))
           (Exception (py "Connection refused")) eq_refl).
Defined.
